(** * Stock predictor client: a shallow embedding of the React components

    The repository's client is a set of React components written in
    TypeScript.  Each component is embedded as a state record (one field per
    [useState] cell) and its event handlers as functions from state to state.
    Callbacks handed down as props ([onAddStock], [onClose]) are functions on
    the parent's state, results of network calls are arguments of the handler
    that awaits them, and the draw of [Math.random()] is an explicit argument.

    A TypeScript [number] is modelled as an exact rational ([Q]); the
    arithmetic of the handlers is division by 100, one multiplication, one
    addition and min/max, and all statements are read in exact arithmetic.
    Strings are ASCII strings; a plain object used as a dictionary
    ([Record<string, Prediction>]) is a [gmap] with string keys. *)

From Stdlib Require Import Ascii QArith Qminmax Qabs FinFun Lia Lqa.
From stdpp Require Import base strings list gmap fin_maps.

Local Open Scope string_scope.
Local Open Scope list_scope.

(** ** The JavaScript primitives the components call *)

Module Js.

(** [Array.prototype.includes] on an array of strings (strict equality). *)
Fixpoint includes (x : string) (xs : list string) : bool :=
  match xs with
  | [] => false
  | y :: ys => if String.eqb y x then true else includes x ys
  end.

(** [String.prototype.toUpperCase], on ASCII text. *)
Definition upper_ascii (c : ascii) : ascii :=
  let n := Ascii.nat_of_ascii c in
  if (97 <=? n)%nat && (n <=? 122)%nat then Ascii.ascii_of_nat (n - 32) else c.

Fixpoint toUpperCase (s : string) : string :=
  match s with
  | EmptyString => EmptyString
  | String c s' => String (upper_ascii c) (toUpperCase s')
  end.

(** White space and line terminators of the ASCII range: TAB, LF, VT, FF,
    CR and SPACE. *)
Definition isWhiteSpace (c : ascii) : bool :=
  let n := Ascii.nat_of_ascii c in
  ((9 <=? n)%nat && (n <=? 13)%nat) || (n =? 32)%nat.

Fixpoint trimStart (s : string) : string :=
  match s with
  | EmptyString => EmptyString
  | String c s' => if isWhiteSpace c then trimStart s' else s
  end.

Fixpoint trimEnd (s : string) : string :=
  match s with
  | EmptyString => EmptyString
  | String c s' =>
      match trimEnd s' with
      | EmptyString => if isWhiteSpace c then EmptyString else String c EmptyString
      | t => String c t
      end
  end.

(** [String.prototype.trim]. *)
Definition trim (s : string) : string := trimEnd (trimStart s).

(** Truthiness of a string: the empty string is the only falsy one. *)
Definition truthy (s : string) : bool :=
  match s with EmptyString => false | _ => true end.

(** [a || b] on optional strings ([undefined] and [''] are falsy). *)
Definition or_else (a : option string) (b : string) : string :=
  match a with
  | Some s => if truthy s then s else b
  | None => b
  end.

(** [Math.min(...xs)] and [Math.max(...xs)].  With no argument JavaScript
    answers [Infinity] and [-Infinity], which are not prices: [None] stands
    for these two non-finite answers. *)
Definition Math_min (xs : list Q) : option Q :=
  match xs with
  | [] => None
  | x :: xs' => Some (fold_left Qmin xs' x)
  end.

Definition Math_max (xs : list Q) : option Q :=
  match xs with
  | [] => None
  | x :: xs' => Some (fold_left Qmax xs' x)
  end.

(** How a call completes: it returns a value, or the engine throws a
    [RangeError] for it. *)
Inductive Completion (A : Type) :=
| Normal (value : A)
| RangeError.

Arguments Normal {A} value.
Arguments RangeError {A}.

(** A call [f(...args)] with spread arguments.  The elements of the array
    become the arguments of the call, and an engine refuses a call with more
    arguments than it has room for with a [RangeError]; [argumentLimit] is
    the number of arguments the engine accepts, which depends on the engine
    and on its stack (of the order of 10^5). *)
Definition spread {A : Type} (argumentLimit : nat) (f : list Q -> A)
    (args : list Q) : Completion A :=
  if (length args <=? argumentLimit)%nat then Normal (f args) else RangeError.

End Js.

(** ** Data exchanged between the components *)

(** [interface Prediction].  The declared type of [prediction] is the union
  ['UP' | 'DOWN' | 'ERROR']; at run time the field holds whatever string was
  stored, so it is a string here and membership in the union is the
  predicate [valid_direction]. *)
Module Prediction.
Record t := mk {
  prediction : string;
  confidence : Q;
  accuracy : Q
}.

Definition valid_direction (d : string) : Prop :=
  d = "UP" \/ d = "DOWN" \/ d = "ERROR".

Definition valid_directionb (d : string) : bool :=
  String.eqb d "UP" || String.eqb d "DOWN" || String.eqb d "ERROR".

End Prediction.

(** [interface PredictionData]: the body of the predictions endpoint. *)
Module PredictionData.
Record t := mk {
  predictions : gmap string Prediction.t;
  last_updated : string;
  prediction_date : string
}.
End PredictionData.

(** [interface Performance]. *)
Module Performance.
Record t := mk {
  accuracy : Q;
  total_predictions : Q
}.
End Performance.

(** [interface NewStockData]: what the modal hands to [onAddStock]. *)
Module NewStockData.
Record t := mk {
  symbol : string;
  name : string;
  currentPrice : Q;
  prediction : Q;
  confidence : Q;
  direction : string
}.
End NewStockData.

(** ** App.tsx *)

Module App.

(** The [useState] cells of [App] that the handlers below read or write. *)
Record State := mkState {
  predictions : option PredictionData.t;
  performance : option Performance.t;
  loading : bool;
  error : option string;
  isAddModalOpen : bool;
  customStocks : list string
}.

Definition defaultStocks : list string :=
  ["AAPL"; "MSFT"; "NVDA"; "GOOGL"; "AMZN"].

(** [const allStocks = [...defaultStocks, ...customStocks]]. *)
Definition allStocks (st : State) : list string :=
  defaultStocks ++ customStocks st.

(** The state of the first render: [useState] initial values. *)
Definition initial : State :=
  {| predictions := None; performance := None; loading := true;
     error := None; isAddModalOpen := false; customStocks := [] |}.

(** [fetchData]: the two GET requests either both answer, and the bodies are
    stored as they are, or the [catch] branch records the failure. *)
Definition fetchData (res : option (PredictionData.t * Performance.t))
    (st : State) : State :=
  match res with
  | Some (predictionRes, statsPerformance) =>
      {| predictions := Some predictionRes;
         performance := Some statsPerformance;
         loading := false;
         error := error st;
         isAddModalOpen := isAddModalOpen st;
         customStocks := customStocks st |}
  | None =>
      {| predictions := predictions st;
         performance := performance st;
         loading := false;
         error := Some "Failed to fetch predictions. Please try again later.";
         isAddModalOpen := isAddModalOpen st;
         customStocks := customStocks st |}
  end.

(** The object literal [newPrediction] of [handleAddStock]; [random] is the
    value [Math.random()] returned for this call. *)
Definition newPrediction (random : Q) (stockData : NewStockData.t)
    : Prediction.t :=
  {| Prediction.prediction := NewStockData.direction stockData;
     Prediction.confidence := (NewStockData.confidence stockData / 100)%Q;
     Prediction.accuracy := (random * 0.3 + 0.7)%Q |}.

(** [handleAddStock]. *)
Definition handleAddStock (random : Q) (stockData : NewStockData.t)
    (st : State) : State :=
  if negb (Js.includes (NewStockData.symbol stockData) (customStocks st)) then
    let customStocks' := customStocks st ++ [NewStockData.symbol stockData] in
    match predictions st with
    | Some prev =>
        {| predictions :=
             Some {| PredictionData.predictions :=
                       <[NewStockData.symbol stockData :=
                           newPrediction random stockData]>
                         (PredictionData.predictions prev);
                     PredictionData.last_updated :=
                       PredictionData.last_updated prev;
                     PredictionData.prediction_date :=
                       PredictionData.prediction_date prev |};
           performance := performance st;
           loading := loading st;
           error := error st;
           isAddModalOpen := isAddModalOpen st;
           customStocks := customStocks' |}
    | None =>
        {| predictions := None;
           performance := performance st;
           loading := loading st;
           error := error st;
           isAddModalOpen := isAddModalOpen st;
           customStocks := customStocks' |}
    end
  else st.

(** [onClose={() => setIsAddModalOpen(false)}]. *)
Definition closeAddModal (st : State) : State :=
  {| predictions := predictions st;
     performance := performance st;
     loading := loading st;
     error := error st;
     isAddModalOpen := false;
     customStocks := customStocks st |}.

(** [predictions?.predictions[symbol]]: the [prediction] prop of the card of
    [symbol]. *)
Definition cardPrediction (st : State) (symbol : string)
    : option Prediction.t :=
  match predictions st with
  | Some data => PredictionData.predictions data !! symbol
  | None => None
  end.

(** The cards of the predictor tab: one per element of [allStocks]. *)
Definition stockCards (st : State) : list (string * option Prediction.t) :=
  map (fun symbol => (symbol, cardPrediction st symbol)) (allStocks st).

(** [predictions?.last_updated], shown in the footer when present. *)
Definition footerLastUpdated (st : State) : option string :=
  match predictions st with
  | Some data => Some (PredictionData.last_updated data)
  | None => None
  end.

End App.

(** ** AddStockModal.tsx *)

Module AddStockModal.

(** The [useState] cells of the modal. *)
Record State := mkState {
  stockSymbol : string;
  isLoading : bool;
  error : string
}.

(** The fields of [response.data] that [handleSubmit] reads. *)
Record ResponseData := mkResponseData {
  symbol : string;
  name : string;
  currentPrice : Q;
  prediction : Q;
  confidence : Q;
  direction : string
}.

(** What the [catch] branch inspects of a rejected request:
    [err.response?.status] and [err.response?.data?.error].  A request that
    never got an answer has no [response]. *)
Record ErrorResponse := mkErrorResponse {
  status : Z;
  dataError : option string
}.

Record AxiosError := mkAxiosError {
  response : option ErrorResponse
}.

(** [axios.post] resolves on a 2xx answer and rejects otherwise. *)
Inductive PostResult :=
| Resolved (data : ResponseData)
| Rejected (err : AxiosError).

Definition blankMessage : string := "Please enter a stock symbol".

Definition notFoundMessage : string :=
  "Stock symbol not found. Please check the symbol and try again.".

Definition failedMessage : string := "Failed to add stock. Please try again.".

(** [err.response?.status === 404]. *)
Definition is404 (err : AxiosError) : bool :=
  match response err with
  | Some r => (status r =? 404)%Z
  | None => false
  end.

(** The message the [catch] branch stores. *)
Definition catchMessage (err : AxiosError) : string :=
  if is404 err then notFoundMessage
  else Js.or_else (match response err with
                   | Some r => dataError r
                   | None => None
                   end) failedMessage.

(** The object literal [stockData] that [handleSubmit] builds from the
    answer. *)
Definition stockData (data : ResponseData) : NewStockData.t :=
  {| NewStockData.symbol := symbol data;
     NewStockData.name := name data;
     NewStockData.currentPrice := currentPrice data;
     NewStockData.prediction := prediction data;
     NewStockData.confidence := confidence data;
     NewStockData.direction := direction data |}.

Section Component.

Context {Parent : Type}.

(** The props [onClose] and [onAddStock] act on the parent's state. *)
Variable onClose : Parent -> Parent.
Variable onAddStock : NewStockData.t -> Parent -> Parent.

(** [axios.post(API_ENDPOINTS.addStock, { symbol })] as the server's answer
    to each posted symbol. *)
Variable post : string -> PostResult.

(** [handleSubmit]: the state of the modal and of the parent once the
    handler has run to its [finally] block. *)
Definition handleSubmit (m : State) (parent : Parent) : State * Parent :=
  if negb (Js.truthy (Js.trim (stockSymbol m))) then
    ({| stockSymbol := stockSymbol m;
        isLoading := isLoading m;
        error := blankMessage |}, parent)
  else
    match post (Js.toUpperCase (stockSymbol m)) with
    | Resolved data =>
        ({| stockSymbol := EmptyString; isLoading := false; error := EmptyString |},
         onClose (onAddStock (stockData data) parent))
    | Rejected err =>
        ({| stockSymbol := stockSymbol m;
            isLoading := false;
            error := catchMessage err |}, parent)
    end.

End Component.

End AddStockModal.

(** [<AddStockModal onClose=... onAddStock={handleAddStock} />]: a submit of
    the modal as mounted by [App]. *)
Definition submitAddStock (random : Q) (post : string -> AddStockModal.PostResult)
    (m : AddStockModal.State) (st : App.State) : AddStockModal.State * App.State :=
  AddStockModal.handleSubmit App.closeAddModal (App.handleAddStock random) post m st.

(** ** StockCard.tsx *)

Module StockCard.

(** One point of the intraday series ([interface StockData]). *)
Record StockData := mkStockData {
  timestamp : Q;
  price : Q
}.

(** What [getPredictionIcon] can return. *)
Inductive Icon := TrendingUp | TrendingDown | QuestionMark.

(** [getPredictionIcon]: the [switch] has cases ['UP'] and ['DOWN'] and a
    [default]. *)
Definition getPredictionIcon (prediction : option Prediction.t) : Icon :=
  match prediction with
  | None => QuestionMark
  | Some p =>
      if String.eqb (Prediction.prediction p) "UP" then TrendingUp
      else if String.eqb (Prediction.prediction p) "DOWN" then TrendingDown
      else QuestionMark
  end.

(** The "Prediction Info" block: the direction text and the two percentages
    before [toFixed], or the loading line when there is no prediction. *)
Inductive InfoBlock :=
| PredictionInfo (direction : string) (confidencePct accuracyPct : Q)
| LoadingPrediction.

Definition percentOrZero (x : Q) : Q :=
  if Qeq_bool x 0 then 0%Q else (x * 100)%Q.

Definition predictionInfo (prediction : option Prediction.t) : InfoBlock :=
  match prediction with
  | Some p =>
      PredictionInfo (Prediction.prediction p)
        (percentOrZero (Prediction.confidence p))
        (percentOrZero (Prediction.accuracy p))
  | None => LoadingPrediction
  end.

(** [getChartDomain]: the two ends of the Y axis.  [Math.min(...prices)] and
    [Math.max(...prices)] are spread calls, for an engine that accepts
    [argumentLimit] arguments.  The value is [None] only if [Math.min] or
    [Math.max] were called without arguments. *)
Definition getChartDomain (argumentLimit : nat) (stockData : list StockData)
    : Js.Completion (option (Q * Q)) :=
  if (length stockData =? 0)%nat then Js.Normal (Some (0%Q, 0%Q))
  else
    let prices := map price stockData in
    match Js.spread argumentLimit Js.Math_min prices with
    | Js.RangeError => Js.RangeError
    | Js.Normal min =>
        match Js.spread argumentLimit Js.Math_max prices with
        | Js.RangeError => Js.RangeError
        | Js.Normal max =>
            Js.Normal
              match min, max with
              | Some min, Some max =>
                  let padding := ((max - min) * 0.1)%Q in
                  Some ((min - padding)%Q, (max + padding)%Q)
              | _, _ => None
              end
        end
    end.

End StockCard.

(** ** MarketOverview.tsx *)

Module MarketOverview.

(** [marketSentiment] of [interface MarketData]. *)
Record MarketSentiment := mkSentiment {
  bullish : Q;
  bearish : Q;
  neutral : Q
}.

Definition total (s : MarketSentiment) : Q :=
  (bullish s + bearish s + neutral s)%Q.

End MarketOverview.

(** ** The market aggregator behind the market-overview endpoint *)

Module MarketAggregator.

Import MarketOverview.

(** Modelled from the spec: the aggregator is server code that is not among
    the sources; the three classes of the sentiment are the spec's bullish,
    bearish and neutral. *)
Inductive Mood := Bullish | Bearish | Neutral.

Definition Mood_eqb (a b : Mood) : bool :=
  match a, b with
  | Bullish, Bullish | Bearish, Bearish | Neutral, Neutral => true
  | _, _ => false
  end.

Section Sentiment.

(** The magnitude a percent-change must exceed to count as a move (the spec
    gives 0.5 as an example). *)
Variable threshold : Q.

(** Modelled from the spec: the sentiment computation of the aggregator is
    missing from the sources.  The spec derives the three percentages "from
    the sign and magnitude of percent-change across the watch-list (e.g.,
    thresholds at ±0.5%)": a symbol is bullish when its percent-change is
    above the threshold, bearish when it is below minus the threshold, and
    neutral otherwise. *)
Definition classify (percentChange : Q) : Mood :=
  if Qlt_le_dec threshold percentChange then Bullish
  else if Qlt_le_dec percentChange (- threshold) then Bearish
  else Neutral.

(** Modelled from the spec: the number of symbols of the watch-list in a
    class (the counting loop of the missing aggregator). *)
Definition countMood (m : Mood) (changes : list Q) : nat :=
  length (List.filter (fun c => Mood_eqb (classify c) m) changes).

(** Modelled from the spec: the share of the watch-list in a class, as a
    percentage (missing with the aggregator). *)
Definition share (count size : nat) : Q :=
  (inject_Z (Z.of_nat count) * 100 / inject_Z (Z.of_nat size))%Q.

(** Modelled from the spec: the sentiment part of [snapshot()] of the missing
    aggregator, from the percent-changes of the watch-list.  A share of an
    empty watch-list is undefined, and no sentiment is produced for it. *)
Definition sentiment (changes : list Q) : option MarketSentiment :=
  match changes with
  | [] => None
  | _ :: _ =>
      let size := length changes in
      Some {| bullish := share (countMood Bullish changes) size;
              bearish := share (countMood Bearish changes) size;
              neutral := share (countMood Neutral changes) size |}
  end.

End Sentiment.

End MarketAggregator.

(** ** App.tsx: what is rendered, and the events of a session *)

Module AppView.

(** The three returns of [App]: the spinner while [loading], the connection
    error page when [error] is truthy, the page with tabs otherwise. *)
Inductive Screen :=
| LoadingScreen
| ErrorScreen (message : string)
| MainScreen.

Definition render (st : App.State) : Screen :=
  if App.loading st then LoadingScreen
  else match App.error st with
       | Some message =>
           if Js.truthy message then ErrorScreen message else MainScreen
       | None => MainScreen
       end.

(** [onClick={() => setIsAddModalOpen(true)}] of the floating button. *)
Definition openAddModal (st : App.State) : App.State :=
  {| App.predictions := App.predictions st;
     App.performance := App.performance st;
     App.loading := App.loading st;
     App.error := App.error st;
     App.isAddModalOpen := true;
     App.customStocks := App.customStocks st |}.

(** What can happen to the state of [App]: a run of [fetchData] comes back
    (first call or a tick of the one-minute interval), the modal hands over a
    stock, the modal is opened or closed. *)
Inductive Event :=
| Fetched (res : option (PredictionData.t * Performance.t))
| AddStock (random : Q) (stockData : NewStockData.t)
| OpenModal
| CloseModal.

Definition step (st : App.State) (e : Event) : App.State :=
  match e with
  | Fetched res => App.fetchData res st
  | AddStock random stockData => App.handleAddStock random stockData st
  | OpenModal => openAddModal st
  | CloseModal => App.closeAddModal st
  end.

Definition run (events : list Event) (st : App.State) : App.State :=
  fold_left step events st.

End AppView.

(** ** StockCard.tsx: the state of a card and its two requests *)

Module StockCardView.

(** [interface DailySummary]; [null] is [None]. *)
Record DailySummary := mkDailySummary {
  open : option Q;
  close : option Q;
  high : option Q;
  low : option Q;
  percent_change : option Q
}.

(** The [useState] cells of [StockCard]. *)
Record State := mkState {
  isExpanded : bool;
  stockData : list StockCard.StockData;
  dailySummary : option DailySummary;
  loading : bool;
  error : option string;
  isLive : bool
}.

Definition initial : State :=
  {| isExpanded := false; stockData := []; dailySummary := None;
     loading := false; error := None; isLive := false |}.

(** How the request of [fetchStockData] can end: [fetch] or [json] threw
    (an [Error] with its message, or something that is not an [Error]); the
    answer was not [ok] and its body had an [error] field or not; the answer
    was [ok] and [result.data] was an array or not. *)
Inductive StockDataOutcome :=
| Threw (message : option string)
| NotOk (errorField : option string)
| Answered (data : option (list StockCard.StockData)).

(** The state the [catch] branch of [fetchStockData] leaves, followed by
    [setLoading(false)]: only the message is stored. *)
Definition failed (message : string) (st : State) : State :=
  {| isExpanded := isExpanded st;
     stockData := stockData st;
     dailySummary := dailySummary st;
     loading := false;
     error := Some message;
     isLive := isLive st |}.

(** [fetchStockData], from [setLoading(true)] to [setLoading(false)]. *)
Definition fetchStockData (outcome : StockDataOutcome) (st : State) : State :=
  match outcome with
  | Threw (Some message) => failed message st
  | Threw None => failed "Failed to fetch stock data" st
  | NotOk errorField =>
      failed (Js.or_else errorField "Failed to fetch stock data") st
  | Answered (Some (d :: ds)) =>
      {| isExpanded := isExpanded st;
         stockData := d :: ds;
         dailySummary := dailySummary st;
         loading := false;
         error := None;
         isLive := true |}
  | Answered _ => failed "No stock data available" st
  end.

(** [fetchDailySummary]: the summary is stored when the answer is [ok];
    anything else is only logged. *)
Definition fetchDailySummary (summary : option DailySummary) (st : State)
    : State :=
  match summary with
  | Some s =>
      {| isExpanded := isExpanded st;
         stockData := stockData st;
         dailySummary := Some s;
         loading := loading st;
         error := error st;
         isLive := isLive st |}
  | None => st
  end.

(** [onClick={() => setIsExpanded(!isExpanded)}]. *)
Definition toggle (st : State) : State :=
  {| isExpanded := negb (isExpanded st);
     stockData := stockData st;
     dailySummary := dailySummary st;
     loading := loading st;
     error := error st;
     isLive := isLive st |}.

(** The colours of the card: gray is [bg-gray-50 border-gray-200], green and
    red are the [green] and [red] classes. *)
Inductive Tone := Gray | Green | Red.

(** [getCardColor]. *)
Definition getCardColor (st : State) : Tone :=
  match dailySummary st with
  | None => Gray
  | Some summary =>
      match percent_change summary with
      | None => Gray
      | Some change => if Qle_bool 0 change then Green else Red
      end
  end.

(** [dailySummary.percent_change ?? 0]. *)
Definition changeOrZero (summary : DailySummary) : Q :=
  match percent_change summary with
  | Some change => change
  | None => 0%Q
  end.

(** The pill next to the price, drawn when there is a summary: its colour
    and its sign prefix both test [(percent_change ?? 0) >= 0]. *)
Definition badgeTone (st : State) : option Tone :=
  match dailySummary st with
  | Some summary =>
      Some (if Qle_bool 0 (changeOrZero summary) then Green else Red)
  | None => None
  end.

(** [getPercentChangeColor]. *)
Definition getPercentChangeColor (change : Q) : Tone :=
  if Qle_bool 0 change then Green else Red.

(** The content of the chart tab: the chain [loading ? ... : error ? ... :
    stockData.length === 0 ? ... : chart], the chart with the [domain] of
    its Y axis, computed while the chart is rendered by an engine that
    accepts [argumentLimit] arguments. *)
Inductive ChartPanel :=
| ChartLoading
| ChartError (message : string)
| NoData
| Chart (domain : Js.Completion (option (Q * Q))).

Definition chartPanel (argumentLimit : nat) (st : State) : ChartPanel :=
  if loading st then ChartLoading
  else
    let plot :=
      if (length (stockData st) =? 0)%nat then NoData
      else Chart (StockCard.getChartDomain argumentLimit (stockData st)) in
    match error st with
    | Some message => if Js.truthy message then ChartError message else plot
    | None => plot
    end.

(** What can happen to a card. *)
Inductive Event :=
| StockDataFetched (outcome : StockDataOutcome)
| SummaryFetched (summary : option DailySummary)
| Toggled.

Definition step (st : State) (e : Event) : State :=
  match e with
  | StockDataFetched outcome => fetchStockData outcome st
  | SummaryFetched summary => fetchDailySummary summary st
  | Toggled => toggle st
  end.

Definition run (events : list Event) (st : State) : State :=
  fold_left step events st.

End StockCardView.

(** ** Numbers with the non-finite values of JavaScript

    The chart of the detail view divides by quantities that can be zero.
    There the result is [NaN] or an infinity, and these values flow through
    the rest of the arithmetic and make every comparison with [NaN] false.
    Finite values are exact rationals, as everywhere else; the sign of zero
    is not modelled. *)

Module JsNumber.

Inductive t :=
| Finite (q : Q)
| PosInfinity
| NegInfinity
| NaN.

Definition of_nat (n : nat) : t := Finite (inject_Z (Z.of_nat n)).

Definition neg (a : t) : t :=
  match a with
  | Finite q => Finite (- q)
  | PosInfinity => NegInfinity
  | NegInfinity => PosInfinity
  | NaN => NaN
  end.

Definition add (a b : t) : t :=
  match a, b with
  | NaN, _ | _, NaN => NaN
  | Finite x, Finite y => Finite (x + y)
  | PosInfinity, NegInfinity | NegInfinity, PosInfinity => NaN
  | PosInfinity, _ | _, PosInfinity => PosInfinity
  | NegInfinity, _ | _, NegInfinity => NegInfinity
  end.

Definition sub (a b : t) : t := add a (neg b).

(** The infinity of the sign of [q], [NaN] for zero. *)
Definition signed_infinity (q : Q) : t :=
  match (q ?= 0)%Q with
  | Gt => PosInfinity
  | Lt => NegInfinity
  | Eq => NaN
  end.

Definition mul (a b : t) : t :=
  match a, b with
  | NaN, _ | _, NaN => NaN
  | Finite x, Finite y => Finite (x * y)
  | PosInfinity, Finite y | Finite y, PosInfinity => signed_infinity y
  | NegInfinity, Finite y | Finite y, NegInfinity => signed_infinity (- y)
  | PosInfinity, PosInfinity | NegInfinity, NegInfinity => PosInfinity
  | PosInfinity, NegInfinity | NegInfinity, PosInfinity => NegInfinity
  end.

Definition div (a b : t) : t :=
  match a, b with
  | NaN, _ | _, NaN => NaN
  | Finite x, Finite y =>
      if Qeq_bool y 0 then signed_infinity x else Finite (x / y)
  | Finite _, _ => Finite 0
  | PosInfinity, Finite y =>
      if Qle_bool 0 y then PosInfinity else NegInfinity
  | NegInfinity, Finite y =>
      if Qle_bool 0 y then NegInfinity else PosInfinity
  | _, _ => NaN
  end.

(** [Math.abs]. *)
Definition abs (a : t) : t :=
  match a with
  | Finite q => Finite (Qabs q)
  | PosInfinity | NegInfinity => PosInfinity
  | NaN => NaN
  end.

(** [a < b]. *)
Definition ltb (a b : t) : bool :=
  match a, b with
  | NaN, _ | _, NaN => false
  | Finite x, Finite y =>
      match (x ?= y)%Q with Lt => true | _ => false end
  | NegInfinity, NegInfinity => false
  | NegInfinity, _ => true
  | _, PosInfinity =>
      match a with PosInfinity => false | _ => true end
  | _, _ => false
  end.

End JsNumber.

(** ** StockDetail.tsx *)

Module StockDetail.

(** [interface ChartData]. *)
Record ChartData := mkChartData {
  timestamp : Q;
  price : Q
}.

(** [formatPrice] of the detail view: a falsy price is shown as ['N/A'],
    any other as dollars with two decimals ([Dollars] carries the number
    before [toFixed]). *)
Inductive PriceText :=
| NotAvailable
| Dollars (amount : Q).

Definition formatPrice (price : Q) : PriceText :=
  if Qeq_bool price 0 then NotAvailable else Dollars price.

(** [x || 0] on a field that is a number or [null]. *)
Definition orZero (x : option Q) : Q :=
  match x with
  | Some q => q
  | None => 0%Q
  end.

(** The numeric fields of [interface StockData] of the detail view. *)
Module StockData.
Record t := mk {
  price : Q;
  change : Q;
  changePercent : Q;
  open : Q;
  high : Q;
  low : Q;
  close : Q
}.
End StockData.

(** The object literal [stockInfo] of [fetchStockData], from the body of the
    summary endpoint.  In [summary.close - summary.open || 0] the subtraction
    comes first, and [null] counts as [0] in it. *)
Definition stockInfo (summary : StockCardView.DailySummary) : StockData.t :=
  {| StockData.price := orZero (StockCardView.close summary);
     StockData.change := (orZero (StockCardView.close summary)
                          - orZero (StockCardView.open summary))%Q;
     StockData.changePercent := orZero (StockCardView.percent_change summary);
     StockData.open := orZero (StockCardView.open summary);
     StockData.high := orZero (StockCardView.high summary);
     StockData.low := orZero (StockCardView.low summary);
     StockData.close := orZero (StockCardView.close summary) |}.

Definition chartHeight : Q := 300.

(** [Math.max(800, chartData.length * 8)]. *)
Definition chartWidth (chartData : list ChartData) : Q :=
  Qmax 800 (inject_Z (Z.of_nat (length chartData)) * 8).

(** [minPrice], [maxPrice] and [priceRange] of [renderInteractiveChart],
    which returns before them when the series is empty. *)
Definition minPrice (chartData : list ChartData) : option Q :=
  Js.Math_min (map price chartData).

Definition maxPrice (chartData : list ChartData) : option Q :=
  Js.Math_max (map price chartData).

Definition priceRange (chartData : list ChartData) : option Q :=
  match minPrice chartData, maxPrice chartData with
  | Some min, Some max => Some (max - min)%Q
  | _, _ => None
  end.

(** The abscissa for an index, where the handlers use it:
    [(index / (chartData.length - 1)) * (chartWidth - 40) + 20]. *)
Definition abscissa (chartData : list ChartData) (index : Z) : JsNumber.t :=
  JsNumber.add
    (JsNumber.mul
       (JsNumber.div (JsNumber.Finite (inject_Z index))
          (JsNumber.sub (JsNumber.of_nat (length chartData))
             (JsNumber.Finite 1)))
       (JsNumber.Finite (chartWidth chartData - 40)))
    (JsNumber.Finite 20).

(** The abscissa of the point at [index] of the series. *)
Definition pointX (chartData : list ChartData) (index : nat) : JsNumber.t :=
  abscissa chartData (Z.of_nat index).

(** The ordinate of a point:
    [chartHeight - 40 - ((point.price - minPrice) / priceRange) *
    (chartHeight - 80)]. *)
Definition pointY (chartData : list ChartData) (point : ChartData)
    : JsNumber.t :=
  match minPrice chartData, priceRange chartData with
  | Some min, Some range =>
      JsNumber.sub (JsNumber.Finite (chartHeight - 40))
        (JsNumber.mul
           (JsNumber.div (JsNumber.Finite (price point - min))
              (JsNumber.Finite range))
           (JsNumber.Finite (chartHeight - 80)))
  | _, _ => JsNumber.NaN
  end.

(** The [forEach] of [handleMouseMove]: the running [closestIndex] and
    [closestDistance], over the points from [index] on. *)
Fixpoint closest (chartData : list ChartData) (mouseX : Q)
    (points : list ChartData) (index : nat)
    (closestIndex : nat) (closestDistance : JsNumber.t)
    : nat * JsNumber.t :=
  match points with
  | [] => (closestIndex, closestDistance)
  | _ :: rest =>
      let x := pointX chartData index in
      let distance :=
        JsNumber.abs (JsNumber.sub (JsNumber.Finite mouseX) x) in
      if JsNumber.ltb distance closestDistance
      then closest chartData mouseX rest (S index) index distance
      else closest chartData mouseX rest (S index) closestIndex closestDistance
  end.

(** What [handleMouseMove] stores in [hoveredPoint]. *)
Record Hovered := mkHovered {
  hoveredPoint : ChartData;
  hoveredX : JsNumber.t;
  hoveredY : JsNumber.t
}.

(** [handleMouseMove], for the pointer at [mouseX] from the left edge. *)
Definition handleMouseMove (chartData : list ChartData) (mouseX : Q)
    : option Hovered :=
  let '(closestIndex, closestDistance) :=
    closest chartData mouseX chartData 0 0 JsNumber.PosInfinity in
  if JsNumber.ltb closestDistance (JsNumber.Finite 50) then
    match chartData !! closestIndex with
    | Some point =>
        Some {| hoveredPoint := point;
                hoveredX := pointX chartData closestIndex;
                hoveredY := pointY chartData point |}
    | None => None
    end
  else None.

(** [Math.ceil(chartData.length / 8)]. *)
Definition labelStep (chartData : list ChartData) : nat :=
  Nat.div (length chartData + 7) 8.

(** The indices of the points that get a time label:
    [chartData.filter((_, index) => index % Math.ceil(chartData.length / 8)
    === 0)]. *)
Definition labelIndices (chartData : list ChartData) : list nat :=
  List.filter (fun index => (index mod labelStep chartData =? 0)%nat)
    (seq 0 (length chartData)).

(** [chartData.findIndex(p => p.timestamp === timestamp)]; the answer is -1
    when no point matches. *)
Fixpoint findIndexFrom (timestamp' : Q) (points : list ChartData) (index : Z)
    : Z :=
  match points with
  | [] => (-1)%Z
  | p :: rest =>
      if Qeq_bool (timestamp p) timestamp' then index
      else findIndexFrom timestamp' rest (index + 1)%Z
  end.

Definition findIndex (timestamp' : Q) (chartData : list ChartData) : Z :=
  findIndexFrom timestamp' chartData 0.

(** The abscissa of the time label of a point: that of [originalIndex], the
    index [findIndex] answers for the timestamp of the point. *)
Definition labelX (chartData : list ChartData) (point : ChartData)
    : JsNumber.t :=
  abscissa chartData (findIndex (timestamp point) chartData).

End StockDetail.

(** ** Vocabulary for the chart of the detail view *)

(** The abscissa as a rational, for a series of at least two points. *)
Definition abscissaQ (chartData : list StockDetail.ChartData) (index : Z) : Q :=
  (inject_Z index / (inject_Z (Z.of_nat (length chartData)) - 1)
   * (StockDetail.chartWidth chartData - 40) + 20)%Q.

(** The horizontal distance between the pointer and the point at [index]. *)
Definition pointerDistance (chartData : list StockDetail.ChartData)
    (mouseX : Q) (index : nat) : Q :=
  Qabs (mouseX - abscissaQ chartData (Z.of_nat index)).


(** What the loop of [handleMouseMove] has established once the points
    before [index] are seen: nothing when it has not started; otherwise
    [closestIndex] is the first of the nearest points among them and
    [closestDistance] its distance. *)
Definition nearestSoFar (chartData : list StockDetail.ChartData) (mouseX : Q)
    (index closestIndex : nat) (closestDistance : JsNumber.t) : Prop :=
  match closestDistance with
  | JsNumber.Finite d =>
      (closestIndex < index)%nat
      /\ d = pointerDistance chartData mouseX closestIndex
      /\ (forall j, (j < index)%nat ->
            (d <= pointerDistance chartData mouseX j)%Q)
      /\ (forall j, (j < closestIndex)%nat ->
            (d < pointerDistance chartData mouseX j)%Q)
  | JsNumber.PosInfinity => index = 0%nat
  | _ => False
  end.

(** ** AddStockModal.tsx: the text field *)

Module AddStockModalView.

(** [onChange={(e) => setStockSymbol(e.target.value.toUpperCase())}]. *)
Definition handleChange (value : string) (m : AddStockModal.State)
    : AddStockModal.State :=
  {| AddStockModal.stockSymbol := Js.toUpperCase value;
     AddStockModal.isLoading := AddStockModal.isLoading m;
     AddStockModal.error := AddStockModal.error m |}.

End AddStockModalView.

(** ** MarketOverview.tsx: the state of the view *)

Module MarketOverviewView.

(** [interface MarketIndex] and [interface TopMover]. *)
Record MarketIndex := mkMarketIndex {
  index_symbol : string;
  index_name : string;
  index_current : Q;
  index_change : Q;
  index_changePercent : Q
}.

Record TopMover := mkTopMover {
  symbol : string;
  name : string;
  current : Q;
  change : Q;
  changePercent : Q;
  volume : Q
}.

Record MarketStats := mkMarketStats {
  totalVolume : Q;
  activeSymbols : Q;
  marketCap : Q;
  volatilityIndex : Q
}.

(** [interface MarketData]. *)
Record MarketData := mkMarketData {
  indices : list MarketIndex;
  topGainers : list TopMover;
  topLosers : list TopMover;
  marketSentiment : MarketOverview.MarketSentiment;
  marketStats : MarketStats;
  lastUpdated : string
}.

(** The [useState] cells of [MarketOverview]. *)
Record State := mkState {
  marketData : option MarketData;
  loading : bool;
  error : option string
}.

Definition initial : State :=
  {| marketData := None; loading := true; error := None |}.

Definition fetchFailed : string :=
  "Failed to fetch market data. Please try again.".

(** [fetchMarketData], from [setLoading(true)] to the [finally] block; the
    request answers with a body or fails. *)
Definition fetchMarketData (response : option MarketData) (st : State)
    : State :=
  match response with
  | Some data => {| marketData := Some data; loading := false; error := None |}
  | None =>
      {| marketData := marketData st;
         loading := false;
         error := Some fetchFailed |}
  end.

(** The four returns of the component. *)
Inductive Screen :=
| Loading
| ErrorBox (message : string)
| NoMarketData
| Overview (data : MarketData).

Definition render (st : State) : Screen :=
  if loading st then Loading
  else
    let body :=
      match marketData st with
      | Some data => Overview data
      | None => NoMarketData
      end in
    match error st with
    | Some message => if Js.truthy message then ErrorBox message else body
    | None => body
    end.

Definition run (responses : list (option MarketData)) (st : State) : State :=
  fold_left (fun st response => fetchMarketData response st) responses st.


End MarketOverviewView.

(** ** StockSearch.tsx *)

Module StockSearch.

(** [interface SearchResult]. *)
Record SearchResult := mkSearchResult {
  symbol : string;
  name : string;
  price : Q;
  change : Q;
  changePercent : Q;
  marketCap : string;
  volume : string
}.

(** The [useState] cells of [StockSearch]. *)
Record State := mkState {
  searchQuery : string;
  searchResults : list SearchResult;
  isLoading : bool;
  error : string
}.

Definition initial : State :=
  {| searchQuery := EmptyString; searchResults := [];
     isLoading := false; error := EmptyString |}.

(** How the GET request of [handleSearch] can end: with a body, whose
    [results] field is there or not, or with a rejection. *)
Inductive SearchOutcome :=
| Found (results : option (list SearchResult))
| Failed (err : AddStockModal.AxiosError).

Definition searchFailed : string :=
  "Failed to search stocks. Please try again.".

(** [response.data.results || []]. *)
Definition resultsOrEmpty (results : option (list SearchResult))
    : list SearchResult :=
  match results with
  | Some rs => rs
  | None => []
  end.

(** [handleSearch] up to its [await]: a blank text returns at once;
    otherwise the request is sent with [isLoading] set and the error
    cleared.  The boolean tells whether a request was sent. *)
Definition handleSearch (st : State) : State * bool :=
  if negb (Js.truthy (Js.trim (searchQuery st))) then (st, false)
  else
    ({| searchQuery := searchQuery st;
        searchResults := searchResults st;
        isLoading := true;
        error := EmptyString |}, true).

(** [handleSearch] from the end of its [await] to its [finally] block, on
    the state of that moment. *)
Definition handleSearchSettled (outcome : SearchOutcome) (st : State)
    : State :=
  match outcome with
  | Found results =>
      {| searchQuery := searchQuery st;
         searchResults := resultsOrEmpty results;
         isLoading := false;
         error := error st |}
  | Failed err =>
      {| searchQuery := searchQuery st;
         searchResults := [];
         isLoading := false;
         error :=
           Js.or_else
             (match AddStockModal.response err with
              | Some r => AddStockModal.dataError r
              | None => None
              end) searchFailed |}
  end.

(** [onChange={(e) => setSearchQuery(e.target.value)}]. *)
Definition setSearchQuery (value : string) (st : State) : State :=
  {| searchQuery := value;
     searchResults := searchResults st;
     isLoading := isLoading st;
     error := error st |}.

(** The blocks under the search bar, each drawn under its own condition:
    the error, the list of results, the "No stocks found" line. *)
Definition showsError (st : State) : bool := Js.truthy (error st).

Definition showsResults (st : State) : bool :=
  (0 <? length (searchResults st))%nat.

Definition showsNoStocksFound (st : State) : bool :=
  Js.truthy (searchQuery st)
  && (length (searchResults st) =? 0)%nat
  && negb (isLoading st)
  && negb (Js.truthy (error st)).

(** The tab together with the number of requests that are awaited. *)
Record Session := mkSession {
  state : State;
  pending : nat
}.

Definition initialSession : Session :=
  {| state := initial; pending := 0 |}.

(** What can happen: the text is edited; a search is asked for, by the
    button or by Enter (the handler of Enter does not look at [isLoading]);
    one of the awaited requests comes back. *)
Inductive Event :=
| Typed (value : string)
| Submitted
| Settled (outcome : SearchOutcome).

Definition step (s : Session) (e : Event) : Session :=
  match e with
  | Typed value =>
      {| state := setSearchQuery value (state s); pending := pending s |}
  | Submitted =>
      let '(st, sent) := handleSearch (state s) in
      {| state := st; pending := if sent then S (pending s) else pending s |}
  | Settled outcome =>
      match pending s with
      | O => s
      | S n => {| state := handleSearchSettled outcome (state s); pending := n |}
      end
  end.

Definition run (events : list Event) (s : Session) : Session :=
  fold_left step events s.

(** No search is asked for while another one is awaited. *)
Fixpoint sequential (events : list Event) (s : Session) : bool :=
  match events with
  | [] => true
  | e :: rest =>
      match e with
      | Submitted =>
          negb (snd (handleSearch (state s))) || (pending s =? 0)%nat
      | _ => true
      end && sequential rest (step s e)
  end.

End StockSearch.

(** * Properties *)

(** ** Vocabulary of the statements *)

(** [handleAddStock] stores a prediction for [stockData] when the symbol
    passes the [includes] guard and the predictions have been loaded. *)
Definition accepted (stockData : NewStockData.t) (st : App.State) : Prop :=
  Js.includes (NewStockData.symbol stockData) (App.customStocks st) = false
  /\ is_Some (App.predictions st).


(** Every prediction a card can be given has a direction of the union. *)
Definition directions_valid (st : App.State) : Prop :=
  forall symbol p,
    App.cardPrediction st symbol = Some p ->
    Prediction.valid_direction (Prediction.prediction p).

(** A state after a successful [fetchData] that answered [data]. *)
Definition loaded (data : PredictionData.t) : App.State :=
  App.fetchData (Some (data, {| Performance.accuracy := 0;
                                Performance.total_predictions := 0 |}))
    App.initial.

Definition noPredictions : PredictionData.t :=
  {| PredictionData.predictions := ∅;
     PredictionData.last_updated := "2024-01-02T08:00:00";
     PredictionData.prediction_date := "2024-01-02" |}.

(** A body of the predictions endpoint with two of the default symbols. *)
Definition twoPredictions : PredictionData.t :=
  {| PredictionData.predictions :=
       <["AAPL" := {| Prediction.prediction := "UP";
                      Prediction.confidence := 0.62;
                      Prediction.accuracy := 0.8 |}]>
         (<["MSFT" := {| Prediction.prediction := "DOWN";
                         Prediction.confidence := 0.55;
                         Prediction.accuracy := 0.8 |}]> ∅);
     PredictionData.last_updated := "2024-01-02T08:00:00";
     PredictionData.prediction_date := "2024-01-02" |}.

Definition stock (symbol : string) (confidence : Q) (direction : string)
    : NewStockData.t :=
  {| NewStockData.symbol := symbol;
     NewStockData.name := symbol;
     NewStockData.currentPrice := 100;
     NewStockData.prediction := 1;
     NewStockData.confidence := confidence;
     NewStockData.direction := direction |}.

(** The modal with [symbol] typed into its field. *)
Definition typed (symbol : string) : AddStockModal.State :=
  {| AddStockModal.stockSymbol := symbol;
     AddStockModal.isLoading := false;
     AddStockModal.error := EmptyString |}.

(** A 2xx answer of the add-stock endpoint. *)
Definition answer (symbol : string) (confidence : Q) (direction : string)
    : AddStockModal.ResponseData :=
  {| AddStockModal.symbol := symbol;
     AddStockModal.name := "Tesla Inc";
     AddStockModal.currentPrice := 250;
     AddStockModal.prediction := 1;
     AddStockModal.confidence := confidence;
     AddStockModal.direction := direction |}.

(** A rejection that carries an answer with [status] and an optional error
    text. *)
Definition rejectedWith (status : Z) (dataError : option string)
    : AddStockModal.PostResult :=
  AddStockModal.Rejected
    {| AddStockModal.response :=
         Some {| AddStockModal.status := status;
                 AddStockModal.dataError := dataError |} |}.

(** The least and the greatest number of a list. *)
Definition isMinimum (m : Q) (xs : list Q) : Prop :=
  In m xs /\ forall x, In x xs -> (m <= x)%Q.

Definition isMaximum (m : Q) (xs : list Q) : Prop :=
  In m xs /\ forall x, In x xs -> (x <= m)%Q.

(** ** The definitions on concrete inputs *)

Example toUpperCase_tsla : Js.toUpperCase "tsla" = "TSLA".
Proof. reflexivity. Qed.

Example trim_spaces : Js.trim "  brk b  " = "brk b" /\ Js.trim "   " = EmptyString.
Proof. split; reflexivity. Qed.

Example includes_custom :
  Js.includes "TSLA" ["META"; "TSLA"] = true
  /\ Js.includes "AAPL" ["META"; "TSLA"] = false.
Proof. split; reflexivity. Qed.

Example handleAddStock_tsla :
  let st := App.handleAddStock 0.5 (stock "TSLA" 64 "UP") (loaded noPredictions)
  in App.allStocks st = ["AAPL"; "MSFT"; "NVDA"; "GOOGL"; "AMZN"; "TSLA"]
     /\ App.cardPrediction st "TSLA"
        = Some {| Prediction.prediction := "UP";
                  Prediction.confidence := (64 / 100)%Q;
                  Prediction.accuracy := (0.5 * 0.3 + 0.7)%Q |}
     /\ App.cardPrediction st "AAPL" = None.
Proof. repeat split; reflexivity. Qed.

Example handleAddStock_before_load :
  App.handleAddStock 0.5 (stock "TSLA" 64 "UP") App.initial
  = {| App.predictions := None; App.performance := None; App.loading := true;
       App.error := None; App.isAddModalOpen := false;
       App.customStocks := ["TSLA"] |}.
Proof. reflexivity. Qed.

Example handleSubmit_server_text :
  AddStockModal.handleSubmit (fun log => log) cons
    (fun _ => rejectedWith 400 (Some "Symbol already tracked")) (typed "TSLA") []
  = ({| AddStockModal.stockSymbol := "TSLA";
        AddStockModal.isLoading := false;
        AddStockModal.error := "Symbol already tracked" |}, []).
Proof. reflexivity. Qed.

Example handleSubmit_no_answer :
  AddStockModal.handleSubmit (fun log => log) cons
    (fun _ => AddStockModal.Rejected {| AddStockModal.response := None |})
    (typed "TSLA") []
  = ({| AddStockModal.stockSymbol := "TSLA";
        AddStockModal.isLoading := false;
        AddStockModal.error := AddStockModal.failedMessage |}, []).
Proof. reflexivity. Qed.

Example getPredictionIcon_cases :
  StockCard.getPredictionIcon
    (Some {| Prediction.prediction := "UP"; Prediction.confidence := 0.6;
             Prediction.accuracy := 0.8 |}) = StockCard.TrendingUp
  /\ StockCard.getPredictionIcon
       (Some {| Prediction.prediction := "ERROR"; Prediction.confidence := 0;
                Prediction.accuracy := 0 |}) = StockCard.QuestionMark
  /\ StockCard.getPredictionIcon None = StockCard.QuestionMark.
Proof. repeat split; reflexivity. Qed.

Example getChartDomain_three_points :
  match StockCard.getChartDomain 1000
          [ {| StockCard.timestamp := 1; StockCard.price := 10 |};
            {| StockCard.timestamp := 2; StockCard.price := 20 |};
            {| StockCard.timestamp := 3; StockCard.price := 15 |} ]
  with
  | Js.Normal (Some (lo, hi)) => (lo == 9 /\ hi == 21)%Q
  | _ => False
  end.
Proof. split; reflexivity. Qed.

Example sentiment_four_symbols :
  match MarketAggregator.sentiment 0.5 [1.2; -0.8; 0.1; 2]%Q with
  | Some s =>
      (MarketOverview.bullish s == 50 /\ MarketOverview.bearish s == 25
       /\ MarketOverview.neutral s == 25)%Q
  | None => False
  end.
Proof. repeat split; reflexivity. Qed.

(** ** handleAddStock *)

Lemma includes_spec (x : string) (xs : list string) :
  Js.includes x xs = true <-> In x xs.
Proof.
  induction xs as [|y ys IH]; simpl.
  - split; [discriminate | tauto].
  - destruct (String.eqb y x) eqn:E.
    + apply String.eqb_eq in E. tauto.
    + apply String.eqb_neq in E. rewrite IH. tauto.
Qed.


Lemma handleAddStock_present random stockData st :
  Js.includes (NewStockData.symbol stockData) (App.customStocks st) = true ->
  App.handleAddStock random stockData st = st.
Proof. intros H. unfold App.handleAddStock. now rewrite H. Qed.

Lemma handleAddStock_customStocks random stockData st :
  Js.includes (NewStockData.symbol stockData) (App.customStocks st) = false ->
  App.customStocks (App.handleAddStock random stockData st)
  = App.customStocks st ++ [NewStockData.symbol stockData].
Proof.
  intros H. unfold App.handleAddStock. rewrite H. simpl.
  now destruct (App.predictions st).
Qed.

(** The card of the added symbol gets the new prediction. *)
Lemma cardPrediction_added random stockData st :
  accepted stockData st ->
  App.cardPrediction (App.handleAddStock random stockData st)
    (NewStockData.symbol stockData)
  = Some (App.newPrediction random stockData).
Proof.
  intros [Hnew [prev Hprev]].
  unfold App.handleAddStock, App.cardPrediction.
  rewrite Hnew, Hprev. simpl. apply lookup_insert_eq.
Qed.

(** The cards of the other symbols keep what they had. *)
Lemma cardPrediction_other random stockData st symbol :
  symbol <> NewStockData.symbol stockData ->
  App.cardPrediction (App.handleAddStock random stockData st) symbol
  = App.cardPrediction st symbol.
Proof.
  intros Hne. unfold App.handleAddStock, App.cardPrediction.
  destruct (Js.includes _ _); simpl; [reflexivity|].
  destruct (App.predictions st) as [prev|]; simpl; [|reflexivity].
  now apply lookup_insert_ne.
Qed.

(** A prediction found after [handleAddStock] is the new one or an old one. *)
Lemma cardPrediction_cases random stockData st symbol p :
  App.cardPrediction (App.handleAddStock random stockData st) symbol = Some p ->
  p = App.newPrediction random stockData
  \/ App.cardPrediction st symbol = Some p.
Proof.
  unfold App.handleAddStock, App.cardPrediction.
  destruct (Js.includes _ _); simpl; [tauto|].
  destruct (App.predictions st) as [prev|]; simpl; [|discriminate].
  rewrite lookup_insert. case_decide; [|tauto].
  intros [= <-]. now left.
Qed.

(** A second add of the same symbol changes nothing, whatever the first add
    found. *)
Lemma handleAddStock_twice random random' stockData st :
  App.handleAddStock random' stockData (App.handleAddStock random stockData st)
  = App.handleAddStock random stockData st.
Proof.
  destruct (Js.includes (NewStockData.symbol stockData) (App.customStocks st))
    eqn:E.
  - rewrite (handleAddStock_present random), (handleAddStock_present random');
      auto.
  - apply handleAddStock_present. rewrite handleAddStock_customStocks by exact E.
    apply includes_spec, in_or_app. right. now left.
Qed.

Lemma accuracy_range (random : Q) :
  (0 <= random -> random < 1 ->
   0.7 <= random * 0.3 + 0.7 /\ random * 0.3 + 0.7 < 1)%Q.
Proof. intros H0 H1. split; lra. Qed.





(** C2 at its failing input: "AAPL" is one of the default symbols, so it is
    in the list of symbols from the start; adding it is not a no-op, the
    list then holds it twice. *)
Theorem C2_default_symbol_listed_twice :
  In "AAPL" (App.allStocks (loaded noPredictions))
  /\ App.allStocks
       (App.handleAddStock 0.5 (stock "AAPL" 80 "UP") (loaded noPredictions))
     = ["AAPL"; "MSFT"; "NVDA"; "GOOGL"; "AMZN"; "AAPL"]
  /\ ~ NoDup (App.allStocks
                (App.handleAddStock 0.5 (stock "AAPL" 80 "UP")
                   (loaded noPredictions))).
Proof.
  assert (E : App.allStocks
                (App.handleAddStock 0.5 (stock "AAPL" 80 "UP")
                   (loaded noPredictions))
              = ["AAPL"; "MSFT"; "NVDA"; "GOOGL"; "AMZN"; "AAPL"])
    by reflexivity.
  split; [now left|]. split; [exact E|].
  rewrite E. intros H. apply NoDup_cons_1_1 in H. apply H.
  do 4 apply list_elem_of_further. apply list_elem_of_here.
Qed.

(** C8: the accuracy stored for an added symbol is [random * 0.3 + 0.7] for
    the draw [random] of [Math.random()], a number in [0.7, 1); it is the
    same for every answer and every state the draw is used with, and another
    draw gives the same answer a different accuracy. *)
Theorem C8_accuracy_is_a_random_draw random stockData st :
  (0 <= random)%Q -> (random < 1)%Q -> accepted stockData st ->
  exists p,
    App.cardPrediction (App.handleAddStock random stockData st)
      (NewStockData.symbol stockData) = Some p
    /\ (0.7 <= Prediction.accuracy p /\ Prediction.accuracy p < 1)%Q
    /\ (forall stockData' st', accepted stockData' st' ->
        exists p',
          App.cardPrediction (App.handleAddStock random stockData' st')
            (NewStockData.symbol stockData') = Some p'
          /\ Prediction.accuracy p' = Prediction.accuracy p)
    /\ (exists random' p',
          (0 <= random' /\ random' < 1)%Q
          /\ App.cardPrediction (App.handleAddStock random' stockData st)
               (NewStockData.symbol stockData) = Some p'
          /\ ~ (Prediction.accuracy p' == Prediction.accuracy p)%Q).
Proof.
  intros H0 H1 Hacc.
  exists (App.newPrediction random stockData).
  split; [now apply cardPrediction_added|].
  split; [simpl; now apply accuracy_range|].
  split.
  - intros stockData' st' Hacc'.
    exists (App.newPrediction random stockData').
    split; [now apply cardPrediction_added | reflexivity].
  - destruct (Qlt_le_dec random 0.5) as [Hlt | Hge].
    + exists 0.5%Q, (App.newPrediction 0.5 stockData).
      split; [split; lra|].
      split; [now apply cardPrediction_added|].
      simpl. lra.
    + exists 0%Q, (App.newPrediction 0 stockData).
      split; [split; lra|].
      split; [now apply cardPrediction_added|].
      simpl. lra.
Qed.

(** An instance: "TSLA" added with the draw 0.25 after an empty load. *)
Lemma C8_accuracy_is_a_random_draw_witness :
  exists p,
    App.cardPrediction
      (App.handleAddStock 0.25 (stock "TSLA" 80 "UP") (loaded noPredictions))
      "TSLA" = Some p
    /\ (0.7 <= Prediction.accuracy p /\ Prediction.accuracy p < 1)%Q
    /\ (forall stockData' st', accepted stockData' st' ->
        exists p',
          App.cardPrediction (App.handleAddStock 0.25 stockData' st')
            (NewStockData.symbol stockData') = Some p'
          /\ Prediction.accuracy p' = Prediction.accuracy p)
    /\ (exists random' p',
          (0 <= random' /\ random' < 1)%Q
          /\ App.cardPrediction
               (App.handleAddStock random' (stock "TSLA" 80 "UP")
                  (loaded noPredictions)) "TSLA" = Some p'
          /\ ~ (Prediction.accuracy p' == Prediction.accuracy p)%Q).
Proof.
  apply (C8_accuracy_is_a_random_draw 0.25 (stock "TSLA" 80 "UP")
           (loaded noPredictions)).
  - lra.
  - lra.
  - split; [reflexivity | eexists; reflexivity].
Defined.

(** ** handleSubmit *)

Lemma cardPrediction_closeAddModal st symbol :
  App.cardPrediction (App.closeAddModal st) symbol
  = App.cardPrediction st symbol.
Proof. reflexivity. Qed.

Lemma allStocks_closeAddModal st :
  App.allStocks (App.closeAddModal st) = App.allStocks st.
Proof. reflexivity. Qed.

Section HandleSubmit.

Context {Parent : Type}.
Variable onClose : Parent -> Parent.
Variable onAddStock : NewStockData.t -> Parent -> Parent.
Variable post : string -> AddStockModal.PostResult.

(** A blank symbol is refused before any request is made. *)
Lemma handleSubmit_blank m parent :
  Js.truthy (Js.trim (AddStockModal.stockSymbol m)) = false ->
  AddStockModal.handleSubmit onClose onAddStock post m parent
  = ({| AddStockModal.stockSymbol := AddStockModal.stockSymbol m;
        AddStockModal.isLoading := AddStockModal.isLoading m;
        AddStockModal.error := AddStockModal.blankMessage |}, parent).
Proof.
  intros H. unfold AddStockModal.handleSubmit. now rewrite H.
Qed.

(** A resolved request: [onAddStock] then [onClose], and the form is reset. *)
Lemma handleSubmit_resolved m parent data :
  Js.truthy (Js.trim (AddStockModal.stockSymbol m)) = true ->
  post (Js.toUpperCase (AddStockModal.stockSymbol m))
  = AddStockModal.Resolved data ->
  AddStockModal.handleSubmit onClose onAddStock post m parent
  = ({| AddStockModal.stockSymbol := EmptyString;
        AddStockModal.isLoading := false;
        AddStockModal.error := EmptyString |},
     onClose (onAddStock (AddStockModal.stockData data) parent)).
Proof.
  intros H Hp. unfold AddStockModal.handleSubmit. now rewrite H, Hp.
Qed.

(** A rejected request: the parent is not called, the message is stored. *)
Lemma handleSubmit_rejected m parent err :
  Js.truthy (Js.trim (AddStockModal.stockSymbol m)) = true ->
  post (Js.toUpperCase (AddStockModal.stockSymbol m))
  = AddStockModal.Rejected err ->
  AddStockModal.handleSubmit onClose onAddStock post m parent
  = ({| AddStockModal.stockSymbol := AddStockModal.stockSymbol m;
        AddStockModal.isLoading := false;
        AddStockModal.error := AddStockModal.catchMessage err |}, parent).
Proof.
  intros H Hp. unfold AddStockModal.handleSubmit. now rewrite H, Hp.
Qed.

End HandleSubmit.

(** C9: when the answer of the add-stock request is handed by [handleSubmit]
    to [handleAddStock] and accepted there, the confidence stored for the
    symbol is the [confidence] field of the answer divided by 100. *)
Theorem C9_confidence_is_answer_over_100 random post m st data :
  Js.truthy (Js.trim (AddStockModal.stockSymbol m)) = true ->
  post (Js.toUpperCase (AddStockModal.stockSymbol m))
  = AddStockModal.Resolved data ->
  accepted (AddStockModal.stockData data) st ->
  exists p,
    App.cardPrediction (snd (submitAddStock random post m st))
      (AddStockModal.symbol data) = Some p
    /\ Prediction.confidence p = (AddStockModal.confidence data / 100)%Q.
Proof.
  intros Hsym Hpost Hacc. unfold submitAddStock.
  rewrite (handleSubmit_resolved _ _ _ _ _ data Hsym Hpost). simpl snd.
  rewrite cardPrediction_closeAddModal.
  exists (App.newPrediction random (AddStockModal.stockData data)).
  split; [|reflexivity].
  exact (cardPrediction_added random _ st Hacc).
Qed.

(** An instance: "tsla" typed, answered with confidence 64. *)
Lemma C9_confidence_is_answer_over_100_witness :
  exists p,
    App.cardPrediction
      (snd (submitAddStock 0.5
              (fun _ => AddStockModal.Resolved (answer "TSLA" 64 "UP"))
              (typed "tsla") (loaded noPredictions)))
      "TSLA" = Some p
    /\ Prediction.confidence p = (64 / 100)%Q.
Proof.
  apply (C9_confidence_is_answer_over_100 0.5
           (fun _ => AddStockModal.Resolved (answer "TSLA" 64 "UP"))
           (typed "tsla") (loaded noPredictions) (answer "TSLA" 64 "UP")).
  - reflexivity.
  - reflexivity.
  - split; [reflexivity | eexists; reflexivity].
Defined.

(** C3: when the add-stock request for the typed ticker is answered with
    status 404, the modal shows the not-found message and the state of the
    application is what it was: the list of symbols and the prediction of
    every card are unchanged. *)
Theorem C3_not_found_adds_nothing random post m st err :
  Js.truthy (Js.trim (AddStockModal.stockSymbol m)) = true ->
  post (Js.toUpperCase (AddStockModal.stockSymbol m))
  = AddStockModal.Rejected err ->
  AddStockModal.is404 err = true ->
  AddStockModal.error (fst (submitAddStock random post m st))
  = AddStockModal.notFoundMessage
  /\ snd (submitAddStock random post m st) = st
  /\ App.allStocks (snd (submitAddStock random post m st)) = App.allStocks st
  /\ forall symbol,
       App.cardPrediction (snd (submitAddStock random post m st)) symbol
       = App.cardPrediction st symbol.
Proof.
  intros Hsym Hpost H404. unfold submitAddStock.
  rewrite (handleSubmit_rejected _ _ _ _ _ err Hsym Hpost). simpl.
  unfold AddStockModal.catchMessage. rewrite H404. auto.
Qed.

(** An instance: "ZZZZ" typed, answered with status 404. *)
Lemma C3_not_found_adds_nothing_witness :
  AddStockModal.error
    (fst (submitAddStock 0.5 (fun _ => rejectedWith 404 None) (typed "ZZZZ")
            (loaded noPredictions)))
  = AddStockModal.notFoundMessage
  /\ snd (submitAddStock 0.5 (fun _ => rejectedWith 404 None) (typed "ZZZZ")
            (loaded noPredictions)) = loaded noPredictions
  /\ App.allStocks
       (snd (submitAddStock 0.5 (fun _ => rejectedWith 404 None)
               (typed "ZZZZ") (loaded noPredictions)))
     = App.allStocks (loaded noPredictions)
  /\ forall symbol,
       App.cardPrediction
         (snd (submitAddStock 0.5 (fun _ => rejectedWith 404 None)
                 (typed "ZZZZ") (loaded noPredictions))) symbol
       = App.cardPrediction (loaded noPredictions) symbol.
Proof.
  apply (C3_not_found_adds_nothing 0.5 (fun _ => rejectedWith 404 None)
           (typed "ZZZZ") (loaded noPredictions)
           {| AddStockModal.response :=
                Some {| AddStockModal.status := 404;
                        AddStockModal.dataError := None |} |}).
  - reflexivity.
  - reflexivity.
  - reflexivity.
Defined.

(** C5, as stated, fails: an answer with status 500 and no error text hands
    no record to the application and shows the generic failure message,
    which is not the not-found error. *)
Lemma C5_failure_that_is_not_not_found :
  AddStockModal.handleSubmit (fun log => log) cons
    (fun _ => rejectedWith 500 None) (typed "TSLA") []
  = ({| AddStockModal.stockSymbol := "TSLA";
        AddStockModal.isLoading := false;
        AddStockModal.error := AddStockModal.failedMessage |}, [])
  /\ AddStockModal.failedMessage <> AddStockModal.notFoundMessage.
Proof. split; [reflexivity | discriminate]. Qed.

(** C5 (amended): for every add-stock submission the result is one of four:
    the symbol is blank and is refused with a message before any request; the
    request is answered and the application is handed a record of exactly
    the six fields symbol, name, currentPrice, prediction, confidence and
    direction, copied from the answer; the request fails with status 404 and
    the not-found message is shown; or the request fails otherwise and the
    error text of the answer, or else the generic failure message, is shown.
    In the three error cases nothing is handed to the application. *)
Theorem C5_submit_outcomes {Parent : Type} (onClose : Parent -> Parent)
    (onAddStock : NewStockData.t -> Parent -> Parent)
    (post : string -> AddStockModal.PostResult)
    (m : AddStockModal.State) (parent : Parent) :
  let result := AddStockModal.handleSubmit onClose onAddStock post m parent in
  (Js.trim (AddStockModal.stockSymbol m) = EmptyString
   /\ snd result = parent
   /\ AddStockModal.error (fst result) = AddStockModal.blankMessage)
  \/ (exists data,
        post (Js.toUpperCase (AddStockModal.stockSymbol m))
        = AddStockModal.Resolved data
        /\ snd result
           = onClose
               (onAddStock
                  (NewStockData.mk (AddStockModal.symbol data)
                     (AddStockModal.name data)
                     (AddStockModal.currentPrice data)
                     (AddStockModal.prediction data)
                     (AddStockModal.confidence data)
                     (AddStockModal.direction data)) parent)
        /\ AddStockModal.error (fst result) = EmptyString)
  \/ (exists err,
        post (Js.toUpperCase (AddStockModal.stockSymbol m))
        = AddStockModal.Rejected err
        /\ AddStockModal.is404 err = true
        /\ snd result = parent
        /\ AddStockModal.error (fst result) = AddStockModal.notFoundMessage)
  \/ (exists err,
        post (Js.toUpperCase (AddStockModal.stockSymbol m))
        = AddStockModal.Rejected err
        /\ AddStockModal.is404 err = false
        /\ snd result = parent
        /\ AddStockModal.error (fst result)
           = Js.or_else
               (match AddStockModal.response err with
                | Some r => AddStockModal.dataError r
                | None => None
                end) AddStockModal.failedMessage).
Proof.
  intros result. subst result.
  destruct (Js.truthy (Js.trim (AddStockModal.stockSymbol m))) eqn:Hsym.
  - destruct (post (Js.toUpperCase (AddStockModal.stockSymbol m)))
      as [data | err] eqn:Hpost.
    + right; left. exists data.
      rewrite (handleSubmit_resolved _ _ _ _ _ data Hsym Hpost). auto.
    + rewrite (handleSubmit_rejected _ _ _ _ _ err Hsym Hpost). simpl.
      unfold AddStockModal.catchMessage.
      destruct (AddStockModal.is404 err) eqn:H404.
      * right; right; left. exists err. auto.
      * right; right; right. exists err. auto.
  - left. rewrite (handleSubmit_blank _ _ _ _ _ Hsym). simpl.
    destruct (Js.trim (AddStockModal.stockSymbol m)); [auto | discriminate].
Qed.

(** ** The cards *)

Lemma cardPrediction_noPredictions symbol :
  App.cardPrediction (loaded noPredictions) symbol = None.
Proof. unfold App.cardPrediction. simpl. apply lookup_empty. Qed.

Lemma directions_valid_noPredictions : directions_valid (loaded noPredictions).
Proof.
  intros symbol p H. rewrite cardPrediction_noPredictions in H. discriminate.
Qed.

Lemma valid_directionb_spec (d : string) :
  Prediction.valid_directionb d = true <-> Prediction.valid_direction d.
Proof.
  unfold Prediction.valid_directionb, Prediction.valid_direction.
  rewrite !orb_true_iff, !String.eqb_eq. tauto.
Qed.

Lemma not_valid_SIDEWAYS : ~ Prediction.valid_direction "SIDEWAYS".
Proof. intros [H | [H | H]]; discriminate. Qed.

(** C4, as stated, fails twice: [handleAddStock] stores the direction of the
    answer as it is, here "SIDEWAYS", which is none of UP, DOWN and ERROR; and
    a listed symbol for which the predictions endpoint sent nothing has no
    prediction at all, its card shows the loading line. *)
Lemma C4_direction_outside_union :
  (exists p,
     App.cardPrediction
       (App.handleAddStock 0.5 (stock "TSLA" 80 "SIDEWAYS")
          (loaded noPredictions)) "TSLA" = Some p
     /\ ~ Prediction.valid_direction (Prediction.prediction p))
  /\ In "AAPL" (App.allStocks (loaded noPredictions))
  /\ App.cardPrediction (loaded noPredictions) "AAPL" = None
  /\ StockCard.predictionInfo (App.cardPrediction (loaded noPredictions) "AAPL")
     = StockCard.LoadingPrediction.
Proof.
  split.
  - eexists. split; [reflexivity | exact not_valid_SIDEWAYS].
  - split; [now left|]. split; reflexivity.
Qed.

Lemma directions_valid_twoPredictions : directions_valid (loaded twoPredictions).
Proof.
  intros symbol p. unfold App.cardPrediction. simpl.
  rewrite lookup_insert. case_decide.
  - intros [= <-]. left. reflexivity.
  - rewrite lookup_insert. case_decide.
    + intros [= <-]. right; left. reflexivity.
    + rewrite lookup_empty. discriminate.
Qed.

(** C4 (amended): [handleAddStock] stores the direction of the add-stock
    answer unchanged, so the predictions held afterwards all have a
    direction among UP, DOWN and ERROR exactly when the stored direction is
    one of them, the directions held before being so.  When it is, the card
    shows UP with the rising icon, DOWN with the falling icon and ERROR with
    the question mark; a symbol without a prediction has no placeholder
    value: its card shows the question mark and the loading line. *)
Theorem C4_directions_presented random stockData st :
  directions_valid st ->
  (accepted stockData st ->
   exists p,
     App.cardPrediction (App.handleAddStock random stockData st)
       (NewStockData.symbol stockData) = Some p
     /\ Prediction.prediction p = NewStockData.direction stockData
     /\ (directions_valid (App.handleAddStock random stockData st)
         <-> Prediction.valid_direction (NewStockData.direction stockData)))
  /\ (Prediction.valid_direction (NewStockData.direction stockData) ->
      directions_valid (App.handleAddStock random stockData st)
      /\ forall symbol,
           match
             App.cardPrediction (App.handleAddStock random stockData st) symbol
           with
           | Some p =>
               (Prediction.prediction p = "UP"
                /\ StockCard.getPredictionIcon (Some p) = StockCard.TrendingUp)
               \/ (Prediction.prediction p = "DOWN"
                   /\ StockCard.getPredictionIcon (Some p)
                      = StockCard.TrendingDown)
               \/ (Prediction.prediction p = "ERROR"
                   /\ StockCard.getPredictionIcon (Some p)
                      = StockCard.QuestionMark)
           | None =>
               StockCard.getPredictionIcon None = StockCard.QuestionMark
               /\ StockCard.predictionInfo None = StockCard.LoadingPrediction
           end).
Proof.
  intros Hst.
  assert (Hkeep : Prediction.valid_direction (NewStockData.direction stockData)
                  -> directions_valid (App.handleAddStock random stockData st)).
  { intros Hdir symbol p Hp.
    destruct (cardPrediction_cases _ _ _ _ _ Hp) as [-> | Hold].
    - exact Hdir.
    - exact (Hst symbol p Hold). }
  split.
  - intros Hacc. exists (App.newPrediction random stockData).
    pose proof (cardPrediction_added random stockData st Hacc) as Hcard.
    split; [exact Hcard|]. split; [reflexivity|].
    split; [|exact Hkeep].
    intros Hafter. exact (Hafter _ _ Hcard).
  - intros Hdir. pose proof (Hkeep Hdir) as Hafter.
    split; [exact Hafter|].
    intros symbol.
    destruct (App.cardPrediction _ symbol) as [p|] eqn:Hp;
      [|split; reflexivity].
    unfold StockCard.getPredictionIcon.
    destruct (Hafter symbol p Hp) as [E | [E | E]]; rewrite E; simpl; auto.
Qed.

(** An instance: "TSLA" added with direction ERROR to the predictions of
    "AAPL" (UP) and "MSFT" (DOWN). *)
Lemma C4_directions_presented_witness :
  let st := loaded twoPredictions in
  let stockData := stock "TSLA" 80 "ERROR" in
  (exists p,
     App.cardPrediction (App.handleAddStock 0.5 stockData st) "TSLA" = Some p
     /\ Prediction.prediction p = "ERROR"
     /\ (directions_valid (App.handleAddStock 0.5 stockData st)
         <-> Prediction.valid_direction "ERROR"))
  /\ directions_valid (App.handleAddStock 0.5 stockData st)
  /\ forall symbol,
       match App.cardPrediction (App.handleAddStock 0.5 stockData st) symbol
       with
       | Some p =>
           (Prediction.prediction p = "UP"
            /\ StockCard.getPredictionIcon (Some p) = StockCard.TrendingUp)
           \/ (Prediction.prediction p = "DOWN"
               /\ StockCard.getPredictionIcon (Some p)
                  = StockCard.TrendingDown)
           \/ (Prediction.prediction p = "ERROR"
               /\ StockCard.getPredictionIcon (Some p)
                  = StockCard.QuestionMark)
       | None =>
           StockCard.getPredictionIcon None = StockCard.QuestionMark
           /\ StockCard.predictionInfo None = StockCard.LoadingPrediction
       end.
Proof.
  intros st stockData. split.
  - apply (proj1 (C4_directions_presented 0.5 stockData st
                    directions_valid_twoPredictions)).
    split; [reflexivity | eexists; reflexivity].
  - apply (proj2 (C4_directions_presented 0.5 stockData st
                    directions_valid_twoPredictions)).
    right; right; reflexivity.
Defined.

(** ** getChartDomain *)

Lemma Qmin_cases (x y : Q) : Qmin x y = x \/ Qmin x y = y.
Proof.
  unfold Qmin, GenericMinMax.gmin. destruct (x ?= y)%Q; auto.
Qed.

Lemma Qmax_cases (x y : Q) : Qmax x y = x \/ Qmax x y = y.
Proof.
  unfold Qmax, GenericMinMax.gmax. destruct (x ?= y)%Q; auto.
Qed.

Lemma fold_Qmin_minimum (xs : list Q) :
  forall x, isMinimum (fold_left Qmin xs x) (x :: xs).
Proof.
  induction xs as [|a xs IH]; intros x; simpl.
  - split; [now left|]. intros y [<- | []]. apply Qle_refl.
  - destruct (IH (Qmin x a)) as [Hin Hle]. split.
    + destruct Hin as [Hm | Hm]; [|now right; right].
      rewrite <- Hm. destruct (Qmin_cases x a) as [-> | ->]; simpl; auto.
    + assert (Hacc : (fold_left Qmin xs (Qmin x a) <= Qmin x a)%Q)
        by (apply Hle; now left).
      intros y [<- | [<- | Hy]].
      * eapply Qle_trans; [exact Hacc | apply Q.le_min_l].
      * eapply Qle_trans; [exact Hacc | apply Q.le_min_r].
      * apply Hle. now right.
Qed.

Lemma fold_Qmax_maximum (xs : list Q) :
  forall x, isMaximum (fold_left Qmax xs x) (x :: xs).
Proof.
  induction xs as [|a xs IH]; intros x; simpl.
  - split; [now left|]. intros y [<- | []]. apply Qle_refl.
  - destruct (IH (Qmax x a)) as [Hin Hle]. split.
    + destruct Hin as [Hm | Hm]; [|now right; right].
      rewrite <- Hm. destruct (Qmax_cases x a) as [-> | ->]; simpl; auto.
    + assert (Hacc : (Qmax x a <= fold_left Qmax xs (Qmax x a))%Q)
        by (apply Hle; now left).
      intros y [<- | [<- | Hy]].
      * eapply Qle_trans; [apply Q.le_max_l | exact Hacc].
      * eapply Qle_trans; [apply Q.le_max_r | exact Hacc].
      * apply Hle. now right.
Qed.

Lemma spread_within {A : Type} argumentLimit (f : list Q -> A) args :
  (length args <= argumentLimit)%nat ->
  Js.spread argumentLimit f args = Js.Normal (f args).
Proof.
  intros H. unfold Js.spread.
  destruct (length args <=? argumentLimit)%nat eqn:E; [reflexivity|].
  apply Nat.leb_gt in E. lia.
Qed.

Lemma spread_beyond {A : Type} argumentLimit (f : list Q -> A) args :
  (argumentLimit < length args)%nat ->
  Js.spread argumentLimit f args = Js.RangeError.
Proof.
  intros H. unfold Js.spread.
  destruct (length args <=? argumentLimit)%nat eqn:E; [|reflexivity].
  apply Nat.leb_le in E. lia.
Qed.

(** C10, as stated, fails: [getChartDomain] is not safe on every series.  A
    series with more points than the engine accepts arguments makes
    [Math.min(...prices)] throw a [RangeError]: 150000 points for an engine
    that accepts 125000 arguments, and one point more than the limit for
    any engine. *)
Lemma C10_long_series_throws :
  StockCard.getChartDomain (N.to_nat 125000)
    (repeat {| StockCard.timestamp := 0; StockCard.price := 10 |}
       (N.to_nat 150000))
  = Js.RangeError
  /\ forall argumentLimit point,
       StockCard.getChartDomain argumentLimit
         (repeat point (S argumentLimit))
       = Js.RangeError.
Proof.
  assert (H : forall argumentLimit n point,
            (argumentLimit < n)%nat ->
            StockCard.getChartDomain argumentLimit (repeat point n)
            = Js.RangeError).
  { intros argumentLimit n point Hn. unfold StockCard.getChartDomain.
    rewrite repeat_length.
    destruct (n =? 0)%nat eqn:E; [apply Nat.eqb_eq in E; lia|].
    rewrite spread_beyond; [reflexivity|].
    rewrite length_map, repeat_length. exact Hn. }
  split.
  - apply H. apply Nat.ltb_lt. vm_compute. reflexivity.
  - intros argumentLimit point. apply H. lia.
Qed.

(** C10 (amended): [getChartDomain] answers [0, 0] on the empty series,
    without asking for the minimum or maximum of no numbers.  On a non-empty
    series with no more points than the engine accepts arguments in a call
    it answers [min - 0.1 (max - min), max + 0.1 (max - min)] for the least
    price [min] and the greatest price [max] of the series; on a longer
    series the spread call throws a [RangeError]. *)
Theorem C10_getChartDomain_answers argumentLimit
    (stockData : list StockCard.StockData) :
  match stockData with
  | [] =>
      StockCard.getChartDomain argumentLimit stockData
      = Js.Normal (Some (0%Q, 0%Q))
  | _ :: _ =>
      ((length stockData <= argumentLimit)%nat ->
       exists min max lo hi,
         Js.Math_min (map StockCard.price stockData) = Some min
         /\ Js.Math_max (map StockCard.price stockData) = Some max
         /\ isMinimum min (map StockCard.price stockData)
         /\ isMaximum max (map StockCard.price stockData)
         /\ StockCard.getChartDomain argumentLimit stockData
            = Js.Normal (Some (lo, hi))
         /\ (lo == min - 0.1 * (max - min))%Q
         /\ (hi == max + 0.1 * (max - min))%Q)
      /\ ((argumentLimit < length stockData)%nat ->
          StockCard.getChartDomain argumentLimit stockData = Js.RangeError)
  end.
Proof.
  destruct stockData as [|d ds]; [reflexivity|]. split.
  - intros Hlen.
    set (min := fold_left Qmin (map StockCard.price ds) (StockCard.price d)).
    set (max := fold_left Qmax (map StockCard.price ds) (StockCard.price d)).
    exists min, max, (min - (max - min) * 0.1)%Q, (max + (max - min) * 0.1)%Q.
    split; [reflexivity|]. split; [reflexivity|].
    split; [apply fold_Qmin_minimum|]. split; [apply fold_Qmax_maximum|].
    split.
    + unfold StockCard.getChartDomain.
      change (length (d :: ds) =? 0)%nat with false. cbv iota.
      rewrite !spread_within by (rewrite length_map; exact Hlen).
      reflexivity.
    + split; ring.
  - intros Hlen. unfold StockCard.getChartDomain.
    change (length (d :: ds) =? 0)%nat with false. cbv iota.
    rewrite spread_beyond by (rewrite length_map; exact Hlen).
    reflexivity.
Qed.

(** An instance for the first part: three points, an engine that accepts
    1000 arguments. *)
Lemma C10_getChartDomain_answers_witness :
  exists min max lo hi,
    Js.Math_min [10; 20; 15]%Q = Some min
    /\ Js.Math_max [10; 20; 15]%Q = Some max
    /\ isMinimum min [10; 20; 15]%Q
    /\ isMaximum max [10; 20; 15]%Q
    /\ StockCard.getChartDomain 1000
         [ {| StockCard.timestamp := 1; StockCard.price := 10 |};
           {| StockCard.timestamp := 2; StockCard.price := 20 |};
           {| StockCard.timestamp := 3; StockCard.price := 15 |} ]
       = Js.Normal (Some (lo, hi))
    /\ (lo == min - 0.1 * (max - min))%Q
    /\ (hi == max + 0.1 * (max - min))%Q.
Proof.
  apply (C10_getChartDomain_answers 1000
           [ {| StockCard.timestamp := 1; StockCard.price := 10 |};
             {| StockCard.timestamp := 2; StockCard.price := 20 |};
             {| StockCard.timestamp := 3; StockCard.price := 15 |} ]).
  simpl. lia.
Defined.

(** ** Market sentiment *)

Section SentimentSum.

Variable threshold : Q.

Lemma countMood_partition (changes : list Q) :
  (MarketAggregator.countMood threshold MarketAggregator.Bullish changes
   + MarketAggregator.countMood threshold MarketAggregator.Bearish changes
   + MarketAggregator.countMood threshold MarketAggregator.Neutral changes
   = length changes)%nat.
Proof.
  unfold MarketAggregator.countMood.
  induction changes as [|c cs IH]; [reflexivity|]. simpl.
  destruct (MarketAggregator.classify threshold c); simpl; lia.
Qed.

Lemma share_sum (b r n size : nat) :
  (b + r + n = size)%nat -> size <> 0%nat ->
  (MarketAggregator.share b size + MarketAggregator.share r size
   + MarketAggregator.share n size == 100)%Q.
Proof.
  intros Hsum Hsize. unfold MarketAggregator.share.
  assert (Hq : (inject_Z (Z.of_nat size)
                == inject_Z (Z.of_nat b) + inject_Z (Z.of_nat r)
                   + inject_Z (Z.of_nat n))%Q).
  { rewrite <- !inject_Z_plus, <- !Nat2Z.inj_add, Hsum. reflexivity. }
  assert (Hnz : ~ (inject_Z (Z.of_nat size) == 0)%Q).
  { intros H. unfold Qeq in H. simpl in H. lia. }
  rewrite Hq in Hnz |- *. field. exact Hnz.
Qed.

End SentimentSum.

(** C7: for every watch-list the aggregator has a sentiment for, that is for
    every watch-list with at least one symbol, whatever its size and the
    threshold, the bullish, bearish and neutral percentages sum to exactly
    100. *)
Theorem C7_sentiment_sums_to_100 (threshold : Q) (changes : list Q) :
  (changes <> [] ->
   is_Some (MarketAggregator.sentiment threshold changes))
  /\ forall s,
       MarketAggregator.sentiment threshold changes = Some s ->
       (MarketOverview.total s == 100)%Q.
Proof.
  split.
  - destruct changes; [congruence | eexists; reflexivity].
  - intros s Hs. destruct changes as [|c cs]; [discriminate|].
    injection Hs as <-. unfold MarketOverview.total.
    cbv beta iota delta [MarketOverview.bullish MarketOverview.bearish
                          MarketOverview.neutral].
    apply share_sum; [apply countMood_partition | discriminate].
Qed.

(** * More properties of the components *)

(** ** App.tsx: sessions *)

Lemma App_run_invariant (P : App.State -> Prop) :
  (forall st e, P st -> P (AppView.step st e)) ->
  forall events st, P st -> P (AppView.run events st).
Proof.
  intros Hstep events. unfold AppView.run.
  induction events as [|e events IH]; intros st HP; simpl; [exact HP|].
  apply IH, Hstep, HP.
Qed.

Lemma handleAddStock_listed random stockData st :
  In (NewStockData.symbol stockData)
    (App.customStocks (App.handleAddStock random stockData st)).
Proof.
  destruct (Js.includes (NewStockData.symbol stockData) (App.customStocks st))
    eqn:E.
  - rewrite handleAddStock_present by exact E. now apply includes_spec.
  - rewrite handleAddStock_customStocks by exact E.
    apply in_or_app. right. now left.
Qed.

Lemma handleAddStock_render random stockData st :
  AppView.render (App.handleAddStock random stockData st) = AppView.render st.
Proof.
  unfold App.handleAddStock, AppView.render.
  destruct (Js.includes _ _); simpl; [reflexivity|].
  now destruct (App.predictions st).
Qed.

Lemma step_customStocks_prefix st e :
  App.customStocks st `prefix_of` App.customStocks (AppView.step st e).
Proof.
  destruct e as [res | random stockData | |]; simpl.
  - destruct res as [[? ?]|]; reflexivity.
  - destruct (Js.includes (NewStockData.symbol stockData) (App.customStocks st))
      eqn:E.
    + now rewrite handleAddStock_present.
    + rewrite handleAddStock_customStocks by exact E. now apply prefix_app_r.
  - reflexivity.
  - reflexivity.
Qed.

Lemma step_customStocks_NoDup st e :
  NoDup (App.customStocks st) -> NoDup (App.customStocks (AppView.step st e)).
Proof.
  intros Hnd. destruct e as [res | random stockData | |]; simpl; try exact Hnd.
  - now destruct res as [[? ?]|].
  - destruct (Js.includes (NewStockData.symbol stockData) (App.customStocks st))
      eqn:E.
    + now rewrite handleAddStock_present.
    + rewrite handleAddStock_customStocks by exact E.
      apply NoDup_app. split; [exact Hnd|]. split; [|apply NoDup_singleton].
      intros x Hx Hx'. apply list_elem_of_singleton in Hx'. subst x.
      apply list_elem_of_In, includes_spec in Hx. congruence.
Qed.

(** X1: an add touches one symbol only.  The card of every other symbol
    keeps the prediction it had, the symbols listed before stay listed in
    the same order in front of the list, and the screen shown is the same. *)
Theorem X1_add_touches_one_symbol random stockData st :
  (forall symbol,
     symbol <> NewStockData.symbol stockData ->
     App.cardPrediction (App.handleAddStock random stockData st) symbol
     = App.cardPrediction st symbol)
  /\ App.allStocks st
     `prefix_of` App.allStocks (App.handleAddStock random stockData st)
  /\ AppView.render (App.handleAddStock random stockData st)
     = AppView.render st.
Proof.
  split; [intros symbol Hne; now apply cardPrediction_other|].
  split; [|apply handleAddStock_render].
  unfold App.allStocks. apply prefix_app.
  exact (step_customStocks_prefix st (AppView.AddStock random stockData)).
Qed.

(** X2: the first add of a symbol wins.  Once a symbol has been added,
    another add of the same symbol, with whatever other fields and whatever
    draw, changes nothing: neither the list nor the stored prediction. *)
Theorem X2_first_add_wins random random' stockData stockData' st :
  NewStockData.symbol stockData' = NewStockData.symbol stockData ->
  App.handleAddStock random' stockData'
    (App.handleAddStock random stockData st)
  = App.handleAddStock random stockData st.
Proof.
  intros Hsym. apply handleAddStock_present. rewrite Hsym.
  apply includes_spec, handleAddStock_listed.
Qed.

(** An instance: "TSLA" answered UP with 64, then DOWN with 10. *)
Lemma X2_first_add_wins_witness :
  App.handleAddStock 0.9 (stock "TSLA" 10 "DOWN")
    (App.handleAddStock 0.5 (stock "TSLA" 64 "UP") (loaded noPredictions))
  = App.handleAddStock 0.5 (stock "TSLA" 64 "UP") (loaded noPredictions).
Proof.
  apply (X2_first_add_wins 0.5 0.9 (stock "TSLA" 64 "UP")
           (stock "TSLA" 10 "DOWN") (loaded noPredictions)).
  reflexivity.
Defined.

(** X3: in every session, whatever is fetched and added in whatever order,
    the symbols added at run time are pairwise distinct, and a symbol that
    is listed stays listed at its place: the list only grows at its end. *)
Theorem X3_custom_symbols_distinct_and_kept events :
  NoDup (App.customStocks (AppView.run events App.initial))
  /\ forall st,
       App.allStocks st `prefix_of` App.allStocks (AppView.run events st).
Proof.
  split.
  - apply (App_run_invariant (fun st => NoDup (App.customStocks st))).
    + intros st e. apply step_customStocks_NoDup.
    + apply NoDup_nil_2.
  - intros st. unfold App.allStocks. apply prefix_app.
    apply (App_run_invariant
             (fun st' => App.customStocks st `prefix_of` App.customStocks st')).
    + intros st' e H. etransitivity; [exact H | apply step_customStocks_prefix].
    + reflexivity.
Qed.

(** X4: a refresh replaces the predictions wholesale.  After [fetchData]
    stores a new body, the card of every symbol shows what that body holds
    for it; a symbol added before stays listed, and when the body has no
    entry for it, its card falls back to the loading line. *)
Theorem X4_refresh_drops_local_prediction random stockData st data perf :
  let st' := App.fetchData (Some (data, perf))
               (App.handleAddStock random stockData st) in
  (forall symbol,
     App.cardPrediction st' symbol = PredictionData.predictions data !! symbol)
  /\ In (NewStockData.symbol stockData) (App.allStocks st')
  /\ (PredictionData.predictions data !! NewStockData.symbol stockData = None ->
      StockCard.predictionInfo
        (App.cardPrediction st' (NewStockData.symbol stockData))
      = StockCard.LoadingPrediction).
Proof.
  intros st'. split; [reflexivity|]. split.
  - unfold App.allStocks. apply in_or_app. right. subst st'. simpl.
    apply handleAddStock_listed.
  - intros Hnone. subst st'. unfold App.cardPrediction. simpl.
    now rewrite Hnone.
Qed.

(** X5: a failed fetch is never recovered from.  Once one run of
    [fetchData] has failed, the connection error page is shown after every
    later event, also after later runs of [fetchData] that succeed. *)
Theorem X5_fetch_failure_is_sticky events st :
  AppView.render (AppView.run events (App.fetchData None st))
  = AppView.ErrorScreen
      "Failed to fetch predictions. Please try again later.".
Proof.
  set (message := "Failed to fetch predictions. Please try again later.").
  assert (H : App.loading (AppView.run events (App.fetchData None st)) = false
              /\ App.error (AppView.run events (App.fetchData None st))
                 = Some message).
  { apply (App_run_invariant
             (fun s => App.loading s = false /\ App.error s = Some message)).
    - intros s e [Hl He]. destruct e as [res | random stockData | |]; simpl.
      + destruct res as [[? ?]|]; simpl; auto.
      + unfold App.handleAddStock.
        destruct (Js.includes _ _); simpl; [auto|].
        destruct (App.predictions s); simpl; auto.
      + auto.
      + auto.
    - split; reflexivity. }
  destruct H as [Hl He]. unfold AppView.render. now rewrite Hl, He.
Qed.

(** ** StockCard.tsx: the chart and the state of a card *)

Lemma StockCard_run_invariant (P : StockCardView.State -> Prop) :
  (forall st e, P st -> P (StockCardView.step st e)) ->
  forall events st, P st -> P (StockCardView.run events st).
Proof.
  intros Hstep events. unfold StockCardView.run.
  induction events as [|e events IH]; intros st HP; simpl; [exact HP|].
  apply IH, Hstep, HP.
Qed.

(** X6: the Y axis covers the series.  Whenever [getChartDomain] answers
    [lo, hi], on whatever engine, [lo] is at most [hi] and every price of
    the series lies between them; when all prices of the series are equal,
    the two ends coincide with that price, an axis of height zero. *)
Theorem X6_chart_domain_covers_prices argumentLimit stockData lo hi :
  StockCard.getChartDomain argumentLimit stockData
  = Js.Normal (Some (lo, hi)) ->
  (lo <= hi)%Q
  /\ (forall d, In d stockData ->
        (lo <= StockCard.price d /\ StockCard.price d <= hi)%Q)
  /\ (forall p,
        (forall d, In d stockData -> (StockCard.price d == p)%Q) ->
        stockData <> [] -> (lo == p /\ hi == p)%Q).
Proof.
  destruct stockData as [|d0 ds].
  - intros [= <- <-]. split; [apply Qle_refl|].
    split; [intros d []|]. intros p _ H. congruence.
  - unfold StockCard.getChartDomain, Js.spread.
    change (length (d0 :: ds) =? 0)%nat with false. cbv iota.
    destruct (length (map StockCard.price (d0 :: ds)) <=? argumentLimit)%nat;
      [|discriminate].
    simpl.
    set (min := fold_left Qmin (map StockCard.price ds) (StockCard.price d0)).
    set (max := fold_left Qmax (map StockCard.price ds) (StockCard.price d0)).
    intros [= <- <-].
    destruct (fold_Qmin_minimum (map StockCard.price ds) (StockCard.price d0))
      as [Hmin_in Hmin].
    destruct (fold_Qmax_maximum (map StockCard.price ds) (StockCard.price d0))
      as [Hmax_in Hmax].
    fold min in Hmin_in, Hmin. fold max in Hmax_in, Hmax.
    assert (Hprice : forall d, In d (d0 :: ds) ->
                       (min <= StockCard.price d /\ StockCard.price d <= max)%Q).
    { intros d Hd.
      assert (Hp : In (StockCard.price d)
                     (StockCard.price d0 :: map StockCard.price ds))
        by (change (In (StockCard.price d) (map StockCard.price (d0 :: ds)));
            now apply in_map).
      split; [now apply Hmin | now apply Hmax]. }
    assert (Hmm : (min <= max)%Q).
    { destruct (Hprice d0) as [H1 H2]; [now left|].
      eapply Qle_trans; eassumption. }
    split; [lra|]. split.
    + intros d Hd. destruct (Hprice d Hd). split; lra.
    + intros p Hall _.
      assert (Hin : forall q,
                In q (StockCard.price d0 :: map StockCard.price ds) ->
                (q == p)%Q).
      { intros q Hq.
        change (In q (map StockCard.price (d0 :: ds))) in Hq.
        apply in_map_iff in Hq. destruct Hq as [d [<- Hd]]. now apply Hall. }
      pose proof (Hin min Hmin_in) as E1. pose proof (Hin max Hmax_in) as E2.
      split; lra.
Qed.

(** An instance: a series of three points. *)
Lemma X6_chart_domain_covers_prices_witness :
  let series :=
    [ {| StockCard.timestamp := 1; StockCard.price := 10 |};
      {| StockCard.timestamp := 2; StockCard.price := 20 |};
      {| StockCard.timestamp := 3; StockCard.price := 15 |} ] in
  let lo := (10 - (20 - 10) * 0.1)%Q in
  let hi := (20 + (20 - 10) * 0.1)%Q in
  (lo <= hi)%Q
  /\ (forall d, In d series ->
        (lo <= StockCard.price d /\ StockCard.price d <= hi)%Q)
  /\ (forall p,
        (forall d, In d series -> (StockCard.price d == p)%Q) ->
        series <> [] -> (lo == p /\ hi == p)%Q).
Proof.
  intros series lo hi.
  apply (X6_chart_domain_covers_prices 1000 series lo hi).
  reflexivity.
Defined.

(** X7: the live dot and the series go together.  In every state a card can
    reach, the live indicator is on exactly when the card holds a series,
    and a series once held is never emptied: no request, failed or not,
    clears it. *)
Theorem X7_live_iff_series events :
  (StockCardView.isLive (StockCardView.run events StockCardView.initial) = true
   <-> StockCardView.stockData
         (StockCardView.run events StockCardView.initial) <> [])
  /\ forall st,
       StockCardView.stockData st <> [] ->
       StockCardView.stockData (StockCardView.run events st) <> [].
Proof.
  split.
  - apply (StockCard_run_invariant
             (fun st => StockCardView.isLive st = true
                        <-> StockCardView.stockData st <> [])).
    + intros st e H. destruct e as [outcome | summary |]; simpl.
      * destruct outcome as [[m|] | errorField | [[|d ds]|]]; simpl;
          try exact H.
        split; [discriminate | reflexivity].
      * destruct summary; simpl; exact H.
      * exact H.
    + simpl. split; [discriminate | congruence].
  - intros st.
    apply (StockCard_run_invariant
             (fun st' => StockCardView.stockData st' <> [])).
    intros st' e H. destruct e as [outcome | summary |]; simpl.
    + destruct outcome as [[m|] | errorField | [[|d ds]|]]; simpl;
        try exact H.
      discriminate.
    + destruct summary; simpl; exact H.
    + exact H.
Qed.

(** X8: the "No data available" panel is all but unreachable.  Right after
    a run of [fetchStockData] the chart tab shows it only when the request
    threw an [Error] with an empty message while the card held no series;
    after every other outcome it shows the error or the chart. *)
Theorem X8_no_data_panel_after_fetch argumentLimit outcome st :
  StockCardView.chartPanel argumentLimit
    (StockCardView.fetchStockData outcome st)
  = StockCardView.NoData ->
  outcome = StockCardView.Threw (Some EmptyString)
  /\ StockCardView.stockData st = [].
Proof.
  unfold StockCardView.chartPanel.
  destruct outcome as [[m|] | errorField | [[|d ds]|]]; simpl;
    try discriminate.
  - destruct m as [|c m]; simpl; [|discriminate].
    destruct (StockCardView.stockData st); simpl; [auto | discriminate].
  - destruct errorField as [[|c m]|]; simpl; discriminate.
Qed.

(** An instance: the request of a fresh card throws an empty message. *)
Lemma X8_no_data_panel_after_fetch_witness :
  StockCardView.Threw (Some EmptyString)
  = StockCardView.Threw (Some EmptyString)
  /\ StockCardView.stockData StockCardView.initial = [].
Proof.
  apply (X8_no_data_panel_after_fetch 1000
           (StockCardView.Threw (Some EmptyString)) StockCardView.initial).
  reflexivity.
Defined.

(** X9: a failed refresh hides a chart it does not touch.  When a run of
    [fetchStockData] ends with an error message, the series and the live
    indicator are what they were, yet a non-empty message replaces the
    chart in the chart tab; a run that ends without one stores the new
    series and shows its chart. *)
Theorem X9_failed_refresh_keeps_series argumentLimit outcome st :
  let st' := StockCardView.fetchStockData outcome st in
  match StockCardView.error st' with
  | Some message =>
      StockCardView.stockData st' = StockCardView.stockData st
      /\ StockCardView.isLive st' = StockCardView.isLive st
      /\ (Js.truthy message = true ->
          StockCardView.chartPanel argumentLimit st'
          = StockCardView.ChartError message)
  | None =>
      outcome = StockCardView.Answered (Some (StockCardView.stockData st'))
      /\ StockCardView.isLive st' = true
      /\ StockCardView.chartPanel argumentLimit st'
         = StockCardView.Chart
             (StockCard.getChartDomain argumentLimit
                (StockCardView.stockData st'))
  end.
Proof.
  unfold StockCardView.chartPanel.
  destruct outcome as [[m|] | errorField | [[|d ds]|]]; simpl;
    repeat split; try reflexivity; intros H; now rewrite H.
Qed.

(** X10: the colour of the card and the colour of the pill next to the
    price agree whenever the summary has a percent change; when the summary
    has none, the card is gray while the pill is green, as for a rise. *)
Theorem X10_card_and_pill_colours st summary :
  StockCardView.dailySummary st = Some summary ->
  match StockCardView.percent_change summary with
  | Some change =>
      StockCardView.badgeTone st = Some (StockCardView.getCardColor st)
      /\ StockCardView.getCardColor st
         = StockCardView.getPercentChangeColor change
  | None =>
      StockCardView.getCardColor st = StockCardView.Gray
      /\ StockCardView.badgeTone st = Some StockCardView.Green
  end.
Proof.
  intros Hs. unfold StockCardView.badgeTone, StockCardView.getCardColor,
    StockCardView.changeOrZero, StockCardView.getPercentChangeColor.
  rewrite Hs. destruct (StockCardView.percent_change summary); auto.
Qed.

(** An instance: a summary without percent change. *)
Lemma X10_card_and_pill_colours_witness :
  StockCardView.getCardColor
    (StockCardView.fetchDailySummary
       (Some (StockCardView.mkDailySummary (Some 10%Q) (Some 11%Q) (Some 12%Q)
                (Some 9%Q) None)) StockCardView.initial)
  = StockCardView.Gray
  /\ StockCardView.badgeTone
       (StockCardView.fetchDailySummary
          (Some (StockCardView.mkDailySummary (Some 10%Q) (Some 11%Q) (Some 12%Q)
                   (Some 9%Q) None)) StockCardView.initial)
     = Some StockCardView.Green.
Proof.
  apply (X10_card_and_pill_colours
           (StockCardView.fetchDailySummary
              (Some (StockCardView.mkDailySummary (Some 10%Q) (Some 11%Q)
                       (Some 12%Q) (Some 9%Q) None)) StockCardView.initial)
           (StockCardView.mkDailySummary (Some 10%Q) (Some 11%Q) (Some 12%Q)
              (Some 9%Q) None)).
  reflexivity.
Defined.

(** ** StockDetail.tsx: the chart *)

Lemma inject_nat_ge (n m : nat) :
  (m <= n)%nat -> (inject_Z (Z.of_nat m) <= inject_Z (Z.of_nat n))%Q.
Proof. intros H. rewrite <- Zle_Qle. lia. Qed.

Lemma inject_nat_ge2 (n : nat) :
  (2 <= n)%nat -> (2 <= inject_Z (Z.of_nat n))%Q.
Proof. intros H. change 2%Q with (inject_Z 2). rewrite <- Zle_Qle. lia. Qed.

Lemma inject_nat_lt (n m : nat) :
  (m < n)%nat -> (inject_Z (Z.of_nat m) < inject_Z (Z.of_nat n))%Q.
Proof. intros H. rewrite <- Zlt_Qlt. lia. Qed.

Lemma chartWidth_ge chartData : (800 <= StockDetail.chartWidth chartData)%Q.
Proof. unfold StockDetail.chartWidth. apply Q.le_max_l. Qed.

Lemma abscissa_finite chartData index :
  (2 <= length chartData)%nat ->
  StockDetail.abscissa chartData index
  = JsNumber.Finite (abscissaQ chartData index).
Proof.
  intros Hlen. unfold StockDetail.abscissa, JsNumber.of_nat. simpl.
  destruct (Qeq_bool (inject_Z (Z.of_nat (length chartData)) + - (1)) 0)
    eqn:E; [|reflexivity].
  exfalso. apply Qeq_bool_iff in E.
  pose proof (inject_nat_ge2 _ Hlen) as H. lra.
Qed.

Lemma abscissaQ_affine chartData (i j : Z) :
  (2 <= length chartData)%nat -> (i < j)%Z ->
  (abscissaQ chartData i < abscissaQ chartData j)%Q.
Proof.
  intros Hlen Hij. unfold abscissaQ.
  pose proof (inject_nat_ge2 _ Hlen) as Hn.
  pose proof (chartWidth_ge chartData) as Hw.
  set (n := inject_Z (Z.of_nat (length chartData))) in *.
  set (w := StockDetail.chartWidth chartData) in *.
  assert (Hq : (inject_Z i < inject_Z j)%Q) by (now rewrite <- Zlt_Qlt).
  assert (Hd : (0 < / (n - 1))%Q) by (apply Qinv_lt_0_compat; lra).
  unfold Qdiv.
  assert (Hr : (inject_Z i * / (n - 1) < inject_Z j * / (n - 1))%Q)
    by (apply Qmult_lt_compat_r; assumption).
  assert (Hs : (inject_Z i * / (n - 1) * (w - 40)
                < inject_Z j * / (n - 1) * (w - 40))%Q)
    by (apply Qmult_lt_compat_r; [lra | assumption]).
  lra.
Qed.

Lemma abscissaQ_first chartData : (abscissaQ chartData 0 == 20)%Q.
Proof. unfold abscissaQ. unfold Qdiv. change (inject_Z 0) with 0%Q. ring. Qed.

Lemma abscissaQ_last chartData :
  (2 <= length chartData)%nat ->
  (abscissaQ chartData (Z.of_nat (length chartData - 1))
   == StockDetail.chartWidth chartData - 20)%Q.
Proof.
  intros Hlen. unfold abscissaQ.
  pose proof (inject_nat_ge2 _ Hlen) as Hn.
  replace (Z.of_nat (length chartData - 1))
    with (Z.of_nat (length chartData) - 1)%Z by lia.
  unfold Z.sub. rewrite inject_Z_plus.
  change (inject_Z (- (1))) with (- (1))%Q.
  set (n := inject_Z (Z.of_nat (length chartData))) in *.
  field. lra.
Qed.

(** X11: the points of a series of at least two points are spread from left
    to right over the drawing: every point has a finite abscissa between 20
    and [chartWidth - 20], the first point sits at 20, the last at
    [chartWidth - 20], and a later point sits strictly further right. *)
Theorem X11_points_spread_left_to_right chartData index :
  (2 <= length chartData)%nat -> (index < length chartData)%nat ->
  exists x,
    StockDetail.pointX chartData index = JsNumber.Finite x
    /\ (20 <= x /\ x <= StockDetail.chartWidth chartData - 20)%Q
    /\ (index = 0%nat -> (x == 20)%Q)
    /\ (index = (length chartData - 1)%nat ->
        (x == StockDetail.chartWidth chartData - 20)%Q)
    /\ forall index' x',
         (index < index')%nat ->
         StockDetail.pointX chartData index' = JsNumber.Finite x' ->
         (x < x')%Q.
Proof.
  intros Hlen Hidx. unfold StockDetail.pointX.
  exists (abscissaQ chartData (Z.of_nat index)).
  split; [now apply abscissa_finite|].
  pose proof (abscissaQ_first chartData) as Hfirst.
  pose proof (abscissaQ_last chartData Hlen) as Hlast.
  split; [split|].
  - destruct index as [|index]; [change (Z.of_nat 0) with 0%Z; lra|].
    apply Qlt_le_weak. rewrite <- Hfirst.
    apply abscissaQ_affine; [exact Hlen | lia].
  - destruct (Nat.eq_dec index (length chartData - 1)) as [-> | Hne]; [lra|].
    apply Qlt_le_weak. rewrite <- Hlast.
    apply abscissaQ_affine; [exact Hlen | lia].
  - split; [intros ->; exact Hfirst|].
    split; [intros ->; exact Hlast|].
    intros index' x' Hlt Hx'. rewrite abscissa_finite in Hx' by exact Hlen.
    injection Hx' as <-. apply abscissaQ_affine; [exact Hlen | lia].
Qed.

(** An instance: the second of three points. *)
Lemma X11_points_spread_left_to_right_witness :
  let series :=
    [ StockDetail.mkChartData 1 10; StockDetail.mkChartData 2 20;
      StockDetail.mkChartData 3 15 ] in
  exists x,
    StockDetail.pointX series 1 = JsNumber.Finite x
    /\ (20 <= x /\ x <= StockDetail.chartWidth series - 20)%Q
    /\ (1%nat = 0%nat -> (x == 20)%Q)
    /\ (1%nat = (length series - 1)%nat ->
        (x == StockDetail.chartWidth series - 20)%Q)
    /\ forall index' x',
         (1 < index')%nat ->
         StockDetail.pointX series index' = JsNumber.Finite x' ->
         (x < x')%Q.
Proof.
  intros series.
  apply (X11_points_spread_left_to_right series 1); simpl; lia.
Defined.







(** X14: a series of a single point gets no chart and no tooltip: both
    coordinates of the point are [NaN], and wherever the pointer is,
    [handleMouseMove] stores no hovered point. *)
Theorem X14_single_point_series point mouseX :
  StockDetail.pointX [point] 0 = JsNumber.NaN
  /\ StockDetail.pointY [point] point = JsNumber.NaN
  /\ StockDetail.handleMouseMove [point] mouseX = None.
Proof.
  assert (Hx : StockDetail.pointX [point] 0 = JsNumber.NaN) by reflexivity.
  split; [exact Hx|]. split.
  - unfold StockDetail.pointY, StockDetail.priceRange, StockDetail.minPrice,
      StockDetail.maxPrice, JsNumber.div. simpl.
    assert (E : Qeq_bool (StockDetail.price point - StockDetail.price point) 0
                = true) by (apply Qeq_bool_iff; ring).
    rewrite E. unfold JsNumber.signed_infinity.
    assert (Ec : (StockDetail.price point - StockDetail.price point ?= 0)%Q
                 = Eq) by (apply Qeq_alt; ring).
    rewrite Ec. reflexivity.
  - unfold StockDetail.handleMouseMove. simpl.
    change (StockDetail.pointX [point] 0) with JsNumber.NaN. reflexivity.
Qed.

Lemma closest_nearestSoFar chartData mouseX :
  (2 <= length chartData)%nat ->
  forall points index closestIndex closestDistance,
    nearestSoFar chartData mouseX index closestIndex closestDistance ->
    nearestSoFar chartData mouseX (index + length points)
      (fst (StockDetail.closest chartData mouseX points index closestIndex
              closestDistance))
      (snd (StockDetail.closest chartData mouseX points index closestIndex
              closestDistance)).
Proof.
  intros Hlen points.
  induction points as [|p rest IH]; intros index ci cd Hinv.
  - cbn [StockDetail.closest length fst snd]. now rewrite Nat.add_0_r.
  - cbn [StockDetail.closest length].
    replace (index + S (length rest))%nat with (S index + length rest)%nat
      by lia.
    unfold StockDetail.pointX. rewrite abscissa_finite by exact Hlen.
    change (JsNumber.abs
              (JsNumber.sub (JsNumber.Finite mouseX)
                 (JsNumber.Finite (abscissaQ chartData (Z.of_nat index)))))
      with (JsNumber.Finite (pointerDistance chartData mouseX index)).
    destruct (JsNumber.ltb
                (JsNumber.Finite (pointerDistance chartData mouseX index)) cd)
      eqn:L; apply IH; unfold nearestSoFar in *.
    + destruct cd as [d | | |]; try contradiction.
      * destruct Hinv as (Hci & Hd & Hall & Hfirst). unfold JsNumber.ltb in L.
        destruct (pointerDistance chartData mouseX index ?= d)%Q eqn:E;
          try discriminate.
        apply Qlt_alt in E.
        split; [lia|]. split; [reflexivity|]. split.
        -- intros j Hj. destruct (Nat.eq_dec j index) as [-> | Hne].
           ++ apply Qle_refl.
           ++ eapply Qle_trans; [apply Qlt_le_weak, E | apply Hall; lia].
        -- intros j Hj. eapply Qlt_le_trans; [exact E | now apply Hall].
      * subst index.
        split; [lia|]. split; [reflexivity|]. split.
        -- intros j Hj. replace j with 0%nat by lia. apply Qle_refl.
        -- intros j Hj. lia.
    + destruct cd as [d | | |]; try contradiction; [|discriminate].
      destruct Hinv as (Hci & Hd & Hall & Hfirst). unfold JsNumber.ltb in L.
      assert (Hge : (d <= pointerDistance chartData mouseX index)%Q).
      { destruct (pointerDistance chartData mouseX index ?= d)%Q eqn:E;
          try discriminate.
        - apply Qeq_alt in E. rewrite E. apply Qle_refl.
        - apply Qgt_alt in E. now apply Qlt_le_weak. }
      split; [lia|]. split; [exact Hd|]. split; [|exact Hfirst].
      intros j Hj. destruct (Nat.eq_dec j index) as [-> | Hne].
      * exact Hge.
      * apply Hall. lia.
Qed.

(** X15: over a series of at least two points the tooltip goes to the
    nearest point.  When [handleMouseMove] stores a hovered point, it is a
    point of the series less than 50 away from the pointer, no point is
    nearer, every earlier point is strictly further, and the stored
    coordinates are those of that point; when it stores none, every point
    is 50 or more away. *)
Theorem X15_tooltip_goes_to_nearest_point chartData mouseX :
  (2 <= length chartData)%nat ->
  match StockDetail.handleMouseMove chartData mouseX with
  | Some h =>
      exists index,
        chartData !! index = Some (StockDetail.hoveredPoint h)
        /\ StockDetail.hoveredX h = StockDetail.pointX chartData index
        /\ StockDetail.hoveredY h
           = StockDetail.pointY chartData (StockDetail.hoveredPoint h)
        /\ (pointerDistance chartData mouseX index < 50)%Q
        /\ (forall j, (j < length chartData)%nat ->
              (pointerDistance chartData mouseX index
               <= pointerDistance chartData mouseX j)%Q)
        /\ (forall j, (j < index)%nat ->
              (pointerDistance chartData mouseX index
               < pointerDistance chartData mouseX j)%Q)
  | None =>
      forall j, (j < length chartData)%nat ->
        (50 <= pointerDistance chartData mouseX j)%Q
  end.
Proof.
  intros Hlen.
  pose proof (closest_nearestSoFar chartData mouseX Hlen chartData 0 0
                JsNumber.PosInfinity eq_refl) as Hinv.
  unfold StockDetail.handleMouseMove.
  destruct (StockDetail.closest chartData mouseX chartData 0 0
              JsNumber.PosInfinity) as [ci cd].
  simpl in Hinv. destruct cd as [d | | |]; simpl in Hinv; try contradiction.
  - destruct Hinv as (Hci & Hd & Hall & Hfirst). simpl.
    destruct (d ?= 50)%Q eqn:E.
    + apply Qeq_alt in E. intros j Hj. rewrite <- E. now apply Hall.
    + apply Qlt_alt in E.
      destruct (lookup_lt_is_Some_2 chartData ci Hci) as [point Hpoint].
      rewrite Hpoint. exists ci. simpl. rewrite <- Hd.
      repeat split; auto.
    + apply Qgt_alt in E. intros j Hj.
      eapply Qle_trans; [apply Qlt_le_weak, E | now apply Hall].
  - lia.
Qed.

(** An instance: three points, the pointer at 30, ten right of the first. *)
Lemma X15_tooltip_goes_to_nearest_point_witness :
  match StockDetail.handleMouseMove
          [ StockDetail.mkChartData 1 10; StockDetail.mkChartData 2 20;
            StockDetail.mkChartData 3 15 ] 30
  with
  | Some h =>
      exists index,
        [ StockDetail.mkChartData 1 10; StockDetail.mkChartData 2 20;
          StockDetail.mkChartData 3 15 ] !! index
        = Some (StockDetail.hoveredPoint h)
        /\ StockDetail.hoveredX h
           = StockDetail.pointX
               [ StockDetail.mkChartData 1 10; StockDetail.mkChartData 2 20;
                 StockDetail.mkChartData 3 15 ] index
        /\ StockDetail.hoveredY h
           = StockDetail.pointY
               [ StockDetail.mkChartData 1 10; StockDetail.mkChartData 2 20;
                 StockDetail.mkChartData 3 15 ] (StockDetail.hoveredPoint h)
        /\ (pointerDistance
              [ StockDetail.mkChartData 1 10; StockDetail.mkChartData 2 20;
                StockDetail.mkChartData 3 15 ] 30 index < 50)%Q
        /\ (forall j, (j < 3)%nat ->
              (pointerDistance
                 [ StockDetail.mkChartData 1 10; StockDetail.mkChartData 2 20;
                   StockDetail.mkChartData 3 15 ] 30 index
               <= pointerDistance
                    [ StockDetail.mkChartData 1 10;
                      StockDetail.mkChartData 2 20;
                      StockDetail.mkChartData 3 15 ] 30 j)%Q)
        /\ (forall j, (j < index)%nat ->
              (pointerDistance
                 [ StockDetail.mkChartData 1 10; StockDetail.mkChartData 2 20;
                   StockDetail.mkChartData 3 15 ] 30 index
               < pointerDistance
                   [ StockDetail.mkChartData 1 10;
                     StockDetail.mkChartData 2 20;
                     StockDetail.mkChartData 3 15 ] 30 j)%Q)
  | None =>
      forall j, (j < 3)%nat ->
        (50 <= pointerDistance
                 [ StockDetail.mkChartData 1 10; StockDetail.mkChartData 2 20;
                   StockDetail.mkChartData 3 15 ] 30 j)%Q
  end.
Proof.
  apply (X15_tooltip_goes_to_nearest_point
           [ StockDetail.mkChartData 1 10; StockDetail.mkChartData 2 20;
             StockDetail.mkChartData 3 15 ] 30).
  simpl. lia.
Defined.

Lemma labelStep_bounds chartData :
  chartData <> [] ->
  (1 <= StockDetail.labelStep chartData
   /\ length chartData <= 8 * StockDetail.labelStep chartData)%nat.
Proof.
  intros Hne. unfold StockDetail.labelStep.
  assert (Hlen : (1 <= length chartData)%nat)
    by (destruct chartData; [congruence | simpl; lia]).
  pose proof (Nat.div_mod_eq (length chartData + 7) 8) as Hdiv.
  pose proof (Nat.mod_upper_bound (length chartData + 7) 8) as Hmod.
  lia.
Qed.

(** X16: the time axis of a non-empty series carries at least one and at
    most eight labels, whatever the length of the series; the first point
    is always labelled and every label belongs to a point of the series. *)
Theorem X16_at_most_eight_time_labels chartData :
  chartData <> [] ->
  (1 <= length (StockDetail.labelIndices chartData) <= 8)%nat
  /\ In 0%nat (StockDetail.labelIndices chartData)
  /\ forall index,
       In index (StockDetail.labelIndices chartData) ->
       (index < length chartData)%nat.
Proof.
  intros Hne. destruct (labelStep_bounds chartData Hne) as [Hk Hn].
  unfold StockDetail.labelIndices.
  set (k := StockDetail.labelStep chartData) in *.
  set (n := length chartData) in *.
  assert (Hn1 : (1 <= n)%nat)
    by (subst n; destruct chartData; [congruence | simpl; lia]).
  assert (Hzero : In 0%nat
                    (List.filter (fun index => (index mod k =? 0)%nat)
                       (seq 0 n))).
  { apply filter_In. split; [apply in_seq; lia|].
    apply Nat.eqb_eq, Nat.Div0.mod_0_l. }
  split; [split|split; [exact Hzero|]].
  - destruct (List.filter _ _); [destruct Hzero | simpl; lia].
  - rewrite <- (length_map (fun index => index / k)%nat).
    apply (Nat.le_trans _ (length (seq 0 8))); [|simpl; lia].
    apply NoDup_incl_length.
    + apply Injective_map_NoDup_in.
      * intros x y Hx Hy Hxy.
        apply filter_In in Hx. destruct Hx as [_ Hx].
        apply filter_In in Hy. destruct Hy as [_ Hy].
        apply Nat.eqb_eq in Hx. apply Nat.eqb_eq in Hy.
        rewrite (Nat.div_mod_eq x k), (Nat.div_mod_eq y k), Hx, Hy, Hxy.
        reflexivity.
      * apply List.NoDup_filter, seq_NoDup.
    + intros q Hq. apply in_map_iff in Hq. destruct Hq as (x & <- & Hx).
      apply filter_In in Hx. destruct Hx as [Hx _].
      apply in_seq in Hx. apply in_seq. split; [lia|]. simpl.
      apply Nat.Div0.div_lt_upper_bound. lia.
  - intros index Hin. apply filter_In in Hin. destruct Hin as [Hin _].
    apply in_seq in Hin. lia.
Qed.

(** An instance: a series of three points. *)
Lemma X16_at_most_eight_time_labels_witness :
  let series :=
    [ StockDetail.mkChartData 1 10; StockDetail.mkChartData 2 20;
      StockDetail.mkChartData 3 15 ] in
  (1 <= length (StockDetail.labelIndices series) <= 8)%nat
  /\ In 0%nat (StockDetail.labelIndices series)
  /\ forall index,
       In index (StockDetail.labelIndices series) ->
       (index < length series)%nat.
Proof.
  intros series. apply (X16_at_most_eight_time_labels series). discriminate.
Defined.

Lemma findIndexFrom_first ts points :
  forall base index point,
    points !! index = Some point ->
    (StockDetail.timestamp point == ts)%Q ->
    exists j q,
      StockDetail.findIndexFrom ts points base = (base + Z.of_nat j)%Z
      /\ (j <= index)%nat
      /\ points !! j = Some q
      /\ (StockDetail.timestamp q == ts)%Q
      /\ forall i p, (i < j)%nat -> points !! i = Some p ->
           ~ (StockDetail.timestamp p == ts)%Q.
Proof.
  induction points as [|p0 rest IH]; intros base index point Hlook Hts.
  - discriminate.
  - simpl. destruct (Qeq_bool (StockDetail.timestamp p0) ts) eqn:E.
    + exists 0%nat, p0. apply Qeq_bool_iff in E.
      repeat split; [lia | lia | exact E |]. intros i p Hi. lia.
    + destruct index as [|index].
      { injection Hlook as ->. apply Qeq_bool_iff in Hts. congruence. }
      destruct (IH (base + 1)%Z index point Hlook Hts)
        as (j & q & Hfind & Hj & Hq & Hqts & Hbefore).
      exists (S j), q. repeat split; [lia | lia | exact Hq | exact Hqts |].
      intros i p Hi Hp. destruct i as [|i].
      * injection Hp as <-. intros Habs. apply Qeq_bool_iff in Habs.
        congruence.
      * apply (Hbefore i p); [lia | exact Hp].
Qed.

(** X17: the time label of a point is drawn at the first point of the series
    with the same timestamp.  [findIndex] answers the least index whose
    timestamp equals that of the point, so when no earlier point shares the
    timestamp the label sits at the abscissa of the point itself. *)
Theorem X17_label_sits_at_first_same_timestamp chartData index point :
  chartData !! index = Some point ->
  exists first q,
    StockDetail.findIndex (StockDetail.timestamp point) chartData
    = Z.of_nat first
    /\ (first <= index)%nat
    /\ chartData !! first = Some q
    /\ (StockDetail.timestamp q == StockDetail.timestamp point)%Q
    /\ StockDetail.labelX chartData point = StockDetail.pointX chartData first
    /\ (forall i p, (i < first)%nat -> chartData !! i = Some p ->
          ~ (StockDetail.timestamp p == StockDetail.timestamp point)%Q)
    /\ ((forall i p, (i < index)%nat -> chartData !! i = Some p ->
           ~ (StockDetail.timestamp p == StockDetail.timestamp point)%Q) ->
        StockDetail.labelX chartData point
        = StockDetail.pointX chartData index).
Proof.
  intros Hlook.
  destruct (findIndexFrom_first (StockDetail.timestamp point) chartData 0
              index point Hlook (Qeq_refl _))
    as (j & q & Hfind & Hj & Hq & Hqts & Hbefore).
  rewrite Z.add_0_l in Hfind.
  exists j, q. unfold StockDetail.labelX, StockDetail.pointX,
    StockDetail.findIndex. rewrite Hfind.
  repeat split; try assumption; try reflexivity.
  intros Hdistinct.
  destruct (Nat.eq_dec j index) as [-> | Hne]; [reflexivity|].
  exfalso. apply (Hdistinct j q); [lia | exact Hq | exact Hqts].
Qed.

(** An instance: the second of three points with distinct timestamps. *)
Lemma X17_label_sits_at_first_same_timestamp_witness :
  let series :=
    [ StockDetail.mkChartData 1 10; StockDetail.mkChartData 2 20;
      StockDetail.mkChartData 3 15 ] in
  let point := StockDetail.mkChartData 2 20 in
  exists first q,
    StockDetail.findIndex (StockDetail.timestamp point) series
    = Z.of_nat first
    /\ (first <= 1)%nat
    /\ series !! first = Some q
    /\ (StockDetail.timestamp q == StockDetail.timestamp point)%Q
    /\ StockDetail.labelX series point = StockDetail.pointX series first
    /\ (forall i p, (i < first)%nat -> series !! i = Some p ->
          ~ (StockDetail.timestamp p == StockDetail.timestamp point)%Q)
    /\ ((forall i p, (i < 1)%nat -> series !! i = Some p ->
           ~ (StockDetail.timestamp p == StockDetail.timestamp point)%Q) ->
        StockDetail.labelX series point = StockDetail.pointX series 1).
Proof.
  intros series point.
  apply (X17_label_sits_at_first_same_timestamp series 1 point).
  reflexivity.
Defined.

Lemma formatPrice_orZero (x : option Q) :
  StockDetail.formatPrice (StockDetail.orZero x) = StockDetail.NotAvailable
  <-> x = None \/ exists q, x = Some q /\ (q == 0)%Q.
Proof.
  unfold StockDetail.formatPrice. destruct x as [q|]; simpl.
  - destruct (Qeq_bool q 0) eqn:E.
    + apply Qeq_bool_iff in E. split; [|reflexivity].
      intros _. right. now exists q.
    + split; [discriminate|]. intros [H | (q' & [= <-] & H)];
        [discriminate|]. apply Qeq_bool_iff in H. congruence.
  - split; [now left | reflexivity].
Qed.

(** X18: in the detail view a price that the summary lacks, and a price
    that is zero, are both shown as N/A: this holds for the current price
    (the close), the open, the high and the low.  A summary without close
    has its change shown as minus the open. *)
Theorem X18_missing_or_zero_price_is_not_available summary :
  let info := StockDetail.stockInfo summary in
  let shownNA (text : StockDetail.PriceText) (field : option Q) :=
    text = StockDetail.NotAvailable
    <-> field = None \/ exists q, field = Some q /\ (q == 0)%Q in
  shownNA (StockDetail.formatPrice (StockDetail.StockData.price info))
    (StockCardView.close summary)
  /\ shownNA (StockDetail.formatPrice (StockDetail.StockData.open info))
       (StockCardView.open summary)
  /\ shownNA (StockDetail.formatPrice (StockDetail.StockData.high info))
       (StockCardView.high summary)
  /\ shownNA (StockDetail.formatPrice (StockDetail.StockData.low info))
       (StockCardView.low summary)
  /\ (StockCardView.close summary = None ->
      (StockDetail.StockData.change info
       == - StockDetail.StockData.open info)%Q
      /\ StockDetail.formatPrice (StockDetail.StockData.close info)
         = StockDetail.NotAvailable).
Proof.
  intros info shownNA. subst info shownNA. simpl.
  split; [apply formatPrice_orZero|]. split; [apply formatPrice_orZero|].
  split; [apply formatPrice_orZero|]. split; [apply formatPrice_orZero|].
  intros Hclose. rewrite Hclose. simpl. split; [ring | reflexivity].
Qed.

(** ** AddStockModal.tsx: after a submit *)

Lemma or_else_truthy (a : option string) (b : string) :
  Js.truthy b = true -> Js.truthy (Js.or_else a b) = true.
Proof.
  intros Hb. unfold Js.or_else. destruct a as [s|]; [|exact Hb].
  destruct (Js.truthy s) eqn:E; [exact E | exact Hb].
Qed.

Lemma catchMessage_truthy (err : AddStockModal.AxiosError) :
  Js.truthy (AddStockModal.catchMessage err) = true.
Proof.
  unfold AddStockModal.catchMessage.
  destruct (AddStockModal.is404 err); [reflexivity|].
  now apply or_else_truthy.
Qed.

(** X19: what the user sees after submitting a symbol that is not blank.
    When the request is answered, the modal is closed, the field and the
    error are cleared, and the symbol of the answer is in the list of
    symbols; when it is rejected, the application is untouched, the modal
    keeps the typed symbol, and a message that is never empty is shown.  In
    both cases the modal is no longer loading. *)
Theorem X19_modal_after_submit random post m st :
  Js.truthy (Js.trim (AddStockModal.stockSymbol m)) = true ->
  let result := submitAddStock random post m st in
  AddStockModal.isLoading (fst result) = false
  /\ match post (Js.toUpperCase (AddStockModal.stockSymbol m)) with
     | AddStockModal.Resolved data =>
         App.isAddModalOpen (snd result) = false
         /\ AddStockModal.stockSymbol (fst result) = EmptyString
         /\ AddStockModal.error (fst result) = EmptyString
         /\ In (AddStockModal.symbol data) (App.allStocks (snd result))
     | AddStockModal.Rejected err =>
         snd result = st
         /\ AddStockModal.stockSymbol (fst result) = AddStockModal.stockSymbol m
         /\ Js.truthy (AddStockModal.error (fst result)) = true
     end.
Proof.
  intros Hsym result. subst result. unfold submitAddStock.
  destruct (post (Js.toUpperCase (AddStockModal.stockSymbol m)))
    as [data | err] eqn:Hpost.
  - rewrite (handleSubmit_resolved _ _ _ _ _ data Hsym Hpost).
    cbn [fst snd]. repeat split; try reflexivity.
    rewrite allStocks_closeAddModal. unfold App.allStocks.
    apply in_or_app. right.
    exact (handleAddStock_listed random (AddStockModal.stockData data) st).
  - rewrite (handleSubmit_rejected _ _ _ _ _ err Hsym Hpost).
    cbn [fst snd]. repeat split; try reflexivity. apply catchMessage_truthy.
Qed.

(** An instance: "tsla" typed, answered. *)
Lemma X19_modal_after_submit_witness :
  let result :=
    submitAddStock 0.5
      (fun _ => AddStockModal.Resolved (answer "TSLA" 64 "UP"))
      (typed "tsla") (loaded noPredictions) in
  AddStockModal.isLoading (fst result) = false
  /\ (App.isAddModalOpen (snd result) = false
      /\ AddStockModal.stockSymbol (fst result) = EmptyString
      /\ AddStockModal.error (fst result) = EmptyString
      /\ In "TSLA" (App.allStocks (snd result))).
Proof.
  apply (X19_modal_after_submit 0.5
           (fun _ => AddStockModal.Resolved (answer "TSLA" 64 "UP"))
           (typed "tsla") (loaded noPredictions)).
  reflexivity.
Defined.

Lemma upper_ascii_idempotent (c : ascii) :
  Js.upper_ascii (Js.upper_ascii c) = Js.upper_ascii c.
Proof.
  destruct c as [[] [] [] [] [] [] [] []]; reflexivity.
Qed.

(** X20: the text of the symbol field is already in upper case, so the
    second [toUpperCase] of [handleSubmit] leaves it as it is: the symbol
    posted is the text the field shows. *)
Theorem X20_posted_symbol_is_field_text value m :
  Js.toUpperCase
    (AddStockModal.stockSymbol (AddStockModalView.handleChange value m))
  = AddStockModal.stockSymbol (AddStockModalView.handleChange value m).
Proof.
  simpl. induction value as [|c value IH]; [reflexivity|].
  simpl. now rewrite upper_ascii_idempotent, IH.
Qed.

(** ** MarketOverview.tsx *)

(** X21: the market overview always reflects its latest request.  After any
    number of requests the view shows the body of the last one when it
    answered, and the error box when it failed; in that case the body of an
    earlier request is still held, but hidden behind the box. *)
Theorem X21_overview_reflects_latest_request responses response st :
  let before := MarketOverviewView.run responses st in
  let after := MarketOverviewView.run (responses ++ [response]) st in
  match response with
  | Some data => MarketOverviewView.render after = MarketOverviewView.Overview data
  | None =>
      MarketOverviewView.render after
      = MarketOverviewView.ErrorBox MarketOverviewView.fetchFailed
      /\ MarketOverviewView.marketData after
         = MarketOverviewView.marketData before
  end.
Proof.
  intros before after. subst before after. unfold MarketOverviewView.run.
  rewrite fold_left_app. simpl.
  destruct response as [data|]; [reflexivity | split; reflexivity].
Qed.


(** ** StockSearch.tsx *)

(** What holds of the tab while searches do not overlap: with nothing
    awaited the tab is not loading and an error comes with an empty list;
    with one request awaited the tab is loading and shows no error. *)
Lemma sequential_invariant events :
  forall s,
    ((StockSearch.pending s = 0%nat
      /\ StockSearch.isLoading (StockSearch.state s) = false
      /\ (Js.truthy (StockSearch.error (StockSearch.state s)) = true ->
          StockSearch.searchResults (StockSearch.state s) = []))
     \/ (StockSearch.pending s = 1%nat
         /\ StockSearch.isLoading (StockSearch.state s) = true
         /\ StockSearch.error (StockSearch.state s) = EmptyString)) ->
    StockSearch.sequential events s = true ->
    let s' := StockSearch.run events s in
    (StockSearch.pending s' = 0%nat
     /\ StockSearch.isLoading (StockSearch.state s') = false
     /\ (Js.truthy (StockSearch.error (StockSearch.state s')) = true ->
         StockSearch.searchResults (StockSearch.state s') = []))
    \/ (StockSearch.pending s' = 1%nat
        /\ StockSearch.isLoading (StockSearch.state s') = true
        /\ StockSearch.error (StockSearch.state s') = EmptyString).
Proof.
  induction events as [|e events IH]; intros s Hinv Hseq; [exact Hinv|].
  simpl in Hseq. apply andb_true_iff in Hseq. destruct Hseq as [He Hrest].
  simpl. apply IH; [|exact Hrest]. clear IH Hrest.
  destruct s as [st n]. simpl in *.
  destruct e as [value | | outcome]; simpl.
  - exact Hinv.
  - unfold StockSearch.handleSearch in *.
    destruct (negb (Js.truthy (Js.trim (StockSearch.searchQuery st))));
      simpl in *; [exact Hinv|].
    apply Nat.eqb_eq in He. subst n.
    right. repeat split; reflexivity.
  - destruct Hinv as [(Hn & Hl & Herr) | (Hn & Hl & Herr)]; subst n; simpl.
    + left. auto.
    + left. split; [reflexivity|]. split.
      * now destruct outcome.
      * destruct outcome as [results | err]; simpl; [|reflexivity].
        rewrite Herr. discriminate.
Qed.

Lemma sequential_loading events :
  StockSearch.sequential events StockSearch.initialSession = true ->
  let s := StockSearch.run events StockSearch.initialSession in
  (StockSearch.pending s <= 1)%nat
  /\ (StockSearch.isLoading (StockSearch.state s) = true
      <-> StockSearch.pending s = 1%nat).
Proof.
  intros Hseq s.
  assert (Hinit : StockSearch.pending StockSearch.initialSession = 0%nat
                  /\ StockSearch.isLoading StockSearch.initial = false
                  /\ (Js.truthy (StockSearch.error StockSearch.initial) = true
                      -> StockSearch.searchResults StockSearch.initial = []))
    by (repeat split; discriminate).
  pose proof (sequential_invariant events StockSearch.initialSession
                (or_introl Hinit) Hseq) as Hinv.
  fold s in Hinv.
  destruct Hinv as [(Hn & Hl & Herr) | (Hn & Hl & Herr)].
  - rewrite Hn, Hl. split; [lia | split; discriminate].
  - rewrite Hn, Hl. split; [lia | tauto].
Qed.

(** X23: as long as searches do not overlap, an error and a list of results
    are never shown together, at most one request is awaited, and the tab
    is loading exactly while one is. *)
Theorem X23_search_error_excludes_results events :
  StockSearch.sequential events StockSearch.initialSession = true ->
  let s := StockSearch.run events StockSearch.initialSession in
  (StockSearch.pending s <= 1)%nat
  /\ (StockSearch.isLoading (StockSearch.state s) = true
      <-> StockSearch.pending s = 1%nat)
  /\ (StockSearch.showsError (StockSearch.state s) = true ->
      StockSearch.showsResults (StockSearch.state s) = false).
Proof.
  intros Hseq s.
  assert (Hinit : StockSearch.pending StockSearch.initialSession = 0%nat
                  /\ StockSearch.isLoading StockSearch.initial = false
                  /\ (Js.truthy (StockSearch.error StockSearch.initial) = true
                      -> StockSearch.searchResults StockSearch.initial = []))
    by (repeat split; discriminate).
  pose proof (sequential_invariant events StockSearch.initialSession
                (or_introl Hinit) Hseq) as Hinv.
  fold s in Hinv. unfold StockSearch.showsError, StockSearch.showsResults.
  destruct Hinv as [(Hn & Hl & Herr) | (Hn & Hl & Herr)].
  - rewrite Hn, Hl. split; [lia|]. split; [split; discriminate|].
    intros H. now rewrite (Herr H).
  - rewrite Hn, Hl, Herr. split; [lia|]. split; [tauto | discriminate].
Qed.

(** An instance: a search for "zzzz" that is rejected with status 500,
    then a search for "aapl" that is awaited. *)
Lemma X23_search_error_excludes_results_witness :
  let s :=
    StockSearch.run
      [ StockSearch.Typed "zzzz"; StockSearch.Submitted;
        StockSearch.Settled
          (StockSearch.Failed
             {| AddStockModal.response :=
                  Some {| AddStockModal.status := 500;
                          AddStockModal.dataError := None |} |});
        StockSearch.Typed "aapl"; StockSearch.Submitted ]
      StockSearch.initialSession in
  (StockSearch.pending s <= 1)%nat
  /\ (StockSearch.isLoading (StockSearch.state s) = true
      <-> StockSearch.pending s = 1%nat)
  /\ (StockSearch.showsError (StockSearch.state s) = true ->
      StockSearch.showsResults (StockSearch.state s) = false).
Proof.
  apply (X23_search_error_excludes_results
           [ StockSearch.Typed "zzzz"; StockSearch.Submitted;
             StockSearch.Settled
               (StockSearch.Failed
                  {| AddStockModal.response :=
                       Some {| AddStockModal.status := 500;
                               AddStockModal.dataError := None |} |});
             StockSearch.Typed "aapl"; StockSearch.Submitted ]).
  reflexivity.
Defined.

(** X24: the search tab judges the text of the field against results it was
    not searched with.  Typing leaves the results and the error as they
    are, so results of an earlier search stay on display under the new
    text; and when no results and no error are on display, a non-empty
    text shows "No stocks found" for it exactly when no request is awaited,
    so also before any request for it is made.  This holds as long as
    searches do not overlap. *)
Theorem X24_typing_is_judged_at_once events value :
  StockSearch.sequential events StockSearch.initialSession = true ->
  Js.truthy value = true ->
  let s := StockSearch.run events StockSearch.initialSession in
  let st := StockSearch.state s in
  let st' := StockSearch.setSearchQuery value st in
  StockSearch.searchResults st' = StockSearch.searchResults st
  /\ StockSearch.showsResults st' = StockSearch.showsResults st
  /\ StockSearch.showsError st' = StockSearch.showsError st
  /\ (StockSearch.showsResults st = false ->
      StockSearch.showsError st = false ->
      (StockSearch.showsNoStocksFound st' = true
       <-> StockSearch.pending s = 0%nat)).
Proof.
  intros Hseq Hvalue s st st'.
  destruct (sequential_loading events Hseq) as [Hle Hload].
  fold s in Hle, Hload. fold st in Hload. subst st'.
  split; [reflexivity|]. split; [reflexivity|]. split; [reflexivity|].
  unfold StockSearch.showsResults, StockSearch.showsError,
    StockSearch.showsNoStocksFound. simpl.
  intros Hres Herr. rewrite Hvalue, Herr.
  assert (Hempty : (length (StockSearch.searchResults st) =? 0)%nat = true)
    by (destruct (StockSearch.searchResults st); [reflexivity | discriminate]).
  rewrite Hempty. simpl.
  destruct (StockSearch.isLoading st) eqn:E; simpl.
  - split; [discriminate|]. intros Hn.
    assert (H1 : StockSearch.pending s = 1%nat) by (now apply Hload). lia.
  - split; [|reflexivity]. intros _.
    destruct (StockSearch.pending s) as [|[|n]] eqn:En; [reflexivity | | lia].
    assert (Habs : false = true) by (now apply Hload). discriminate.
Qed.

(** An instance: a search for "zzzz" that finds nothing, then "AAPL" is
    typed. *)
Lemma X24_typing_is_judged_at_once_witness :
  let s :=
    StockSearch.run
      [ StockSearch.Typed "zzzz"; StockSearch.Submitted;
        StockSearch.Settled (StockSearch.Found (Some [])) ]
      StockSearch.initialSession in
  let st := StockSearch.state s in
  let st' := StockSearch.setSearchQuery "AAPL" st in
  StockSearch.searchResults st' = StockSearch.searchResults st
  /\ StockSearch.showsResults st' = StockSearch.showsResults st
  /\ StockSearch.showsError st' = StockSearch.showsError st
  /\ (StockSearch.showsResults st = false ->
      StockSearch.showsError st = false ->
      (StockSearch.showsNoStocksFound st' = true
       <-> StockSearch.pending s = 0%nat)).
Proof.
  apply (X24_typing_is_judged_at_once
           [ StockSearch.Typed "zzzz"; StockSearch.Submitted;
             StockSearch.Settled (StockSearch.Found (Some [])) ] "AAPL").
  - reflexivity.
  - reflexivity.
Defined.

(** X25: overlapping searches can leave an error and results on display
    together.  When a search is asked for twice in a row for a text that is
    not blank (Enter does not wait for the first request), the first request
    is rejected and the second is then answered with results, the answer
    does not clear the message of the rejection: both are shown, and the
    tab has stopped loading although it went on awaiting the second
    request after the first came back. *)
Theorem X25_overlapping_searches_show_both s err result results :
  Js.truthy (Js.trim (StockSearch.searchQuery (StockSearch.state s))) = true ->
  let rejected :=
    StockSearch.run
      [ StockSearch.Submitted; StockSearch.Submitted;
        StockSearch.Settled (StockSearch.Failed err) ] s in
  let answered :=
    StockSearch.step rejected
      (StockSearch.Settled (StockSearch.Found (Some (result :: results)))) in
  StockSearch.pending rejected = S (StockSearch.pending s)
  /\ StockSearch.isLoading (StockSearch.state rejected) = false
  /\ StockSearch.showsError (StockSearch.state answered) = true
  /\ StockSearch.showsResults (StockSearch.state answered) = true
  /\ StockSearch.searchResults (StockSearch.state answered)
     = result :: results.
Proof.
  intros Hquery rejected answered. subst answered rejected.
  destruct s as [st n]. simpl in Hquery.
  unfold StockSearch.run. simpl.
  unfold StockSearch.handleSearch. simpl. rewrite Hquery. simpl.
  rewrite Hquery. simpl.
  repeat split. unfold StockSearch.showsError. simpl.
  now apply or_else_truthy.
Qed.

(** An instance: Enter pressed twice on "aapl" in the fresh tab. *)
Lemma X25_overlapping_searches_show_both_witness :
  let s := StockSearch.step StockSearch.initialSession
             (StockSearch.Typed "aapl") in
  let err := {| AddStockModal.response := None |} in
  let result := StockSearch.mkSearchResult "AAPL" "Apple Inc" 190 1 0.5
                  "2.9T" "50M" in
  let rejected :=
    StockSearch.run
      [ StockSearch.Submitted; StockSearch.Submitted;
        StockSearch.Settled (StockSearch.Failed err) ] s in
  let answered :=
    StockSearch.step rejected
      (StockSearch.Settled (StockSearch.Found (Some [result]))) in
  StockSearch.pending rejected = S (StockSearch.pending s)
  /\ StockSearch.isLoading (StockSearch.state rejected) = false
  /\ StockSearch.showsError (StockSearch.state answered) = true
  /\ StockSearch.showsResults (StockSearch.state answered) = true
  /\ StockSearch.searchResults (StockSearch.state answered) = [result].
Proof.
  intros s err result.
  apply (X25_overlapping_searches_show_both s err result []).
  reflexivity.
Defined.
